(** * The Windows Storage Server iSCSI volume driver

    A shallow embedding of [cinder/volume/drivers/windows/windows.py]
    (class [WindowsDriver]) and of
    [cinder/volume/drivers/windows/windows_common.py] (class
    [WindowsCommon]), and the properties of the driver's lifecycle
    operations.

    Python code that talks to WMI, to the file system, to [qemu-img] and to
    the image service is effectful and may raise.  It is embedded in a state
    and exception monad [Py] over a [world]: the WMI object store of the
    host, its files, the image service and the trace of what the driver
    asked of them. *)

From Stdlib Require Import ZArith String Ascii List.
From stdpp Require Import base option list gmap strings pretty.

Local Open Scope Z_scope.
Local Open Scope string_scope.
Local Open Scope list_scope.

(** ** Python values and exceptions *)

(** The exceptions that reach the driver: those of Python itself; [x_wmi],
    the exception of the [wmi] module, with [com_error.excepinfo[2]], the
    text the COM server gave; and the classes of [cinder.exception] under
    their own names, [ImageUnacceptable] being the specification's
    UnacceptableImage and [VolumeBackendAPIException] its backend-API
    exception. *)
Inductive exn :=
| IndexError
| ValueError
| AttributeError
| IOError (path : string)
| OSError (path : string)
| x_wmi (excepinfo2 : string)
| ImageNotFound (image_id : string)
| ImageUnacceptable (image_id reason : string)
| VolumeBackendAPIException (data : string)
| ServiceError (what : string).

(** The values the driver stores in dictionaries, passes to WMI and hands to
    the logger. *)
Inductive pyval :=
| PyNone
| PyBool (b : bool)
| PyInt (z : Z)
| PyStr (s : string)
| PyExn (e : exn).

(** ** Orchestrator records *)

Record Volume := {
  vol_id : string;
  vol_name : string;
  vol_size : Z;
  vol_provider_location : string;
  vol_provider_auth : option string
}.

Record Snapshot := {
  snap_name : string;
  snap_volume_name : string
}.

Record Connector := { initiator : string }.

Record ImageMeta := {
  img_id : string;
  disk_format : string
}.

(** Process-wide configuration ([CONF]). *)
Record Conf := {
  windows_iscsi_lun_path : string;
  iscsi_target_prefix : string;
  qemu_img_cmd : string;
  image_conversion_dir : string
}.

(** ** WMI objects of the iSCSI target provider *)

Module WT_Portal.
Record t := { Address : string; Port : Z; Listen : bool }.
End WT_Portal.

Module WT_Host.
Record t := { HostName : string; TargetIQN : string; WTDisks : list Z }.
End WT_Host.

Module WT_Disk.
Record t := { WTD : Z; Description : string; DevicePath : string; SizeInMB : Z }.
End WT_Disk.

Module WT_Snapshot.
Record t := { Id : Z; Description : string; OrigWTD : Z }.
End WT_Snapshot.

Module WT_IDMethod.
Record t := { HostName : string; Method : Z; Value : string }.
End WT_IDMethod.

#[global] Instance exn_eq_dec : EqDecision exn.
Proof. solve_decision. Defined.
#[global] Instance pyval_eq_dec : EqDecision pyval.
Proof. solve_decision. Defined.
#[global] Instance WT_IDMethod_eq_dec : EqDecision WT_IDMethod.t.
Proof. solve_decision. Defined.

(** Modelled from the spec: [image_utils.QemuImgInfo], the result of probing
    a file: its format, the backing file it declares, its size; a field the
    probe could not determine is [None]. *)
Record QemuImgInfo := {
  file_format : option string;
  backing_file : option string;
  disk_size : option string
}.

(** ** The trace *)

(** Everything the driver asks of its collaborators is recorded, in order:
    a call of a WMI class or instance method with its keyword arguments, a
    child process, a call of the logger with its message and the arguments
    left for it to format. *)
Inductive event :=
| WMI (cls method : string) (args : list (string * pyval))
| Exec (cmd : list string)
| Log (level msg : string) (args : list pyval).

(** ** The world *)

Record world := World {
  portals : list WT_Portal.t;
  hosts : list WT_Host.t;
  disks : list WT_Disk.t;
  snapshots : list WT_Snapshot.t;
  idmethods : list WT_IDMethod.t;
  files : gmap string string;
  dirs : gset string;
  images : gmap string string;
  events : list event
}.

Definition set_hosts (f : list WT_Host.t → list WT_Host.t) (w : world) : world :=
  World (portals w) (f (hosts w)) (disks w) (snapshots w) (idmethods w)
        (files w) (dirs w) (images w) (events w).
Definition set_disks (f : list WT_Disk.t → list WT_Disk.t) (w : world) : world :=
  World (portals w) (hosts w) (f (disks w)) (snapshots w) (idmethods w)
        (files w) (dirs w) (images w) (events w).
Definition set_snapshots (f : list WT_Snapshot.t → list WT_Snapshot.t) (w : world) : world :=
  World (portals w) (hosts w) (disks w) (f (snapshots w)) (idmethods w)
        (files w) (dirs w) (images w) (events w).
Definition set_idmethods (f : list WT_IDMethod.t → list WT_IDMethod.t) (w : world) : world :=
  World (portals w) (hosts w) (disks w) (snapshots w) (f (idmethods w))
        (files w) (dirs w) (images w) (events w).
Definition set_files (f : gmap string string → gmap string string) (w : world) : world :=
  World (portals w) (hosts w) (disks w) (snapshots w) (idmethods w)
        (f (files w)) (dirs w) (images w) (events w).
Definition set_dirs (f : gset string → gset string) (w : world) : world :=
  World (portals w) (hosts w) (disks w) (snapshots w) (idmethods w)
        (files w) (f (dirs w)) (images w) (events w).
Definition set_images (f : gmap string string → gmap string string) (w : world) : world :=
  World (portals w) (hosts w) (disks w) (snapshots w) (idmethods w)
        (files w) (dirs w) (f (images w)) (events w).
Definition record (e : event) (w : world) : world :=
  World (portals w) (hosts w) (disks w) (snapshots w) (idmethods w)
        (files w) (dirs w) (images w) (events w ++ [e]).

(** ** The monad of driver code *)

(** A computation runs in a world and either raises or returns; what it did
    to the world before raising stays done. *)
Definition Py (A : Type) : Type := world → (exn + A) * world.

Definition ret {A} (a : A) : Py A := λ w, (inr a, w).
Definition raise {A} (e : exn) : Py A := λ w, (inl e, w).
Definition bind {A B} (m : Py A) (k : A → Py B) : Py B :=
  λ w, match m w with
       | (inr a, w1) => k a w1
       | (inl e, w1) => (inl e, w1)
       end.
Definition gets {A} (f : world → A) : Py A := λ w, (inr (f w), w).
Definition modify (f : world → world) : Py unit := λ w, (inr tt, f w).
Definition emit (e : event) : Py unit := modify (record e).

(** [try: body except Exception as exc: handler exc]. *)
Definition try_except {A} (body : Py A) (handler : exn → Py A) : Py A :=
  λ w, match body w with
       | (inr a, w1) => (inr a, w1)
       | (inl e, w1) => handler e w1
       end.

(** [try: body finally: cleanup]. *)
Definition try_finally {A} (body : Py A) (cleanup : Py unit) : Py A :=
  λ w, match body w with
       | (r, w1) =>
           match cleanup w1 with
           | (inr _, w2) => (r, w2)
           | (inl e, w2) => (inl e, w2)
           end
       end.

Notation "'let*' x ':=' c1 'in' c2" := (bind c1 (λ x, c2))
  (at level 10, x name, c1 at level 100, c2 at level 200,
   format "'let*'  x  ':='  c1  'in' '//' c2").
Notation "c1 '>>>' c2" := (bind c1 (λ _, c2))
  (at level 100, c2 at level 200, right associativity,
   format "c1  '>>>' '//' c2").

(** ** Python primitives *)

(** [l[0]]. *)
Definition index0 {A} (l : list A) : Py A :=
  match l with
  | [] => raise IndexError
  | x :: _ => ret x
  end.

(** [s.find(sub)]: the least index where [sub] occurs in [s], or [-1]. *)
Fixpoint find_from (i : Z) (s sub : string) : Z :=
  if String.prefix sub s then i
  else match s with
       | EmptyString => -1
       | String _ s' => find_from (i + 1) s' sub
       end.
Definition find (s sub : string) : Z := find_from 0 s sub.

(** [sub in s]. *)
Definition contains (sub s : string) : bool := negb (find s sub =? -1)%Z.

(** An optional string as a Python value. *)
Definition py_opt (o : option string) : pyval :=
  match o with
  | Some s => PyStr s
  | None => PyNone
  end.

(** The double quote character, as a string. *)
Definition dquote : string := String (ascii_of_nat 34) EmptyString.

(** [str(x)] for an optional string, [None] printing as ["None"]. *)
Definition str_opt (o : option string) : string := from_option id "None" o.

(** [(a, b, c) = auth.split()]. *)
Definition split3 (auth : string) : Py (string * string * string) :=
  match String.words auth with
  | [a; b; c] => ret (a, b, c)
  | _ => raise ValueError
  end.

#[global] Arguments split3 : simpl never.

(** ** Collaborators outside the driver *)

(** What the driver cannot decide: how paths are joined on the host, which
    name [tempfile.mkstemp] picks, what [qemu-img] reports and writes, and
    when the iSCSI target provider or the image service refuse a request. *)
Class Externals := {
  os_path_join : string → string → string;
  mkstemp_name : string → gmap string string → string;
  qemu_info_of : string → QemuImgInfo;
  qemu_convert_to : string → string → option string;
  NewHost_fault : string → list WT_Host.t → option exn;
  NewHost_iqn : string → string;
  Extend_fault : WT_Disk.t → Z → option exn;
  update_fault : string → string → option exn
}.

(** The least identifier above all those in use. *)
Definition fresh_id (ids : list Z) : Z := 1 + foldr Z.max 0 ids.

(** What the iSCSI target provider decides when it makes a disk: whether it
    refuses [NewWTDisk], the bytes of the file it writes for a new disk of
    that many MB, and the path and size of the disk it makes from a
    snapshot. *)
Class Provider := {
  NewWTDisk_fault : string → string → Z → list WT_Disk.t → option exn;
  NewWTDisk_bytes : Z → string;
  Export_DevicePath : WT_Snapshot.t → string;
  Export_SizeInMB : WT_Snapshot.t → Z
}.

(** ** The file system ([os], [tempfile], [fileutils]) *)

Definition os_path_exists (path : string) : Py bool :=
  gets (λ w, bool_decide (is_Some (files w !! path) ∨ path ∈ dirs w)).

Definition os_makedirs (path : string) : Py unit :=
  modify (set_dirs (λ d, {[path]} ∪ d)).

Definition os_unlink (path : string) : Py unit :=
  let* f := gets (λ w, files w !! path) in
  match f with
  | Some _ => modify (set_files (delete path))
  | None => raise (OSError path)
  end.

(** Modelled from the spec: [fileutils.delete_if_exists], the release step of
    the two cleanup scopes; it removes the file and a missing file is not an
    error. *)
Definition delete_if_exists (path : string) : Py unit :=
  modify (set_files (delete path)).

(** Modelled from the spec: [fileutils.file_open] followed by reading the
    file, the source of every stream to the image service. *)
Definition file_open (path : string) : Py string :=
  let* f := gets (λ w, files w !! path) in
  match f with
  | Some bytes => ret bytes
  | None => raise (IOError path)
  end.

(** Modelled from the spec: [fileutils.remove_path_on_error], the
    remove-on-error scope: the path is removed when the body raises, and the
    exception goes on. *)
Definition remove_path_on_error {A} (path : string) (body : Py A) : Py A :=
  try_except body (λ exc, delete_if_exists path >>> raise exc).

Section Collaborators.
Context `{Ext : Externals}.
Variable CONF : Conf.

(** [fd, tmp = tempfile.mkstemp(dir=...); os.close(fd)]: a new empty file. *)
Definition mkstemp (dir : string) : Py string :=
  let* tmp := gets (λ w, mkstemp_name dir (files w)) in
  modify (set_files (insert tmp EmptyString)) >>>
  ret tmp.

(** Modelled from the spec: [image_utils.temporary_file], the scoped
    temporary file of the import path, deleted on every exit of the body. *)
Definition temporary_file {A} (body : string → Py A) : Py A :=
  let* tmp := mkstemp (image_conversion_dir CONF) in
  try_finally (body tmp) (delete_if_exists tmp).

(** ** The image service *)

(** Modelled from the spec: [image_utils.fetch], which streams the image to
    the given path. *)
Definition image_utils_fetch (image_id path : string) : Py unit :=
  let* img := gets (λ w, images w !! image_id) in
  match img with
  | Some bytes => modify (set_files (insert path bytes))
  | None => raise (ImageNotFound image_id)
  end.

(** [image_service.update(context, image_id, meta, image_file)]. *)
Definition image_service_update (image_id bytes : string) : Py unit :=
  match update_fault image_id bytes with
  | Some e => raise e
  | None => modify (set_images (insert image_id bytes))
  end.

(** ** The WMI connections ([self._conn_wmi], [self._conn_cimv2]) *)

Definition WT_Portal_all : Py (list WT_Portal.t) :=
  emit (WMI "WT_Portal" "query" []) >>>
  gets portals.

Definition WT_Host_query (key name : string) : Py (list WT_Host.t) :=
  emit (WMI "WT_Host" "query" [(key, PyStr name)]) >>>
  gets (λ w, filter (λ h, WT_Host.HostName h = name) (hosts w)).

Definition WT_Disk_by_Description (desc : string) : Py (list WT_Disk.t) :=
  emit (WMI "WT_Disk" "query" [("Description", PyStr desc)]) >>>
  gets (λ w, filter (λ d, WT_Disk.Description d = desc) (disks w)).

Definition WT_Snapshot_by_Id (id : Z) : Py (list WT_Snapshot.t) :=
  emit (WMI "WT_Snapshot" "query" [("Id", PyInt id)]) >>>
  gets (λ w, filter (λ s, WT_Snapshot.Id s = id) (snapshots w)).

Definition WT_Snapshot_by_Description (desc : string) : Py (list WT_Snapshot.t) :=
  emit (WMI "WT_Snapshot" "query" [("Description", PyStr desc)]) >>>
  gets (λ w, filter (λ s, WT_Snapshot.Description s = desc) (snapshots w)).

Definition WT_IDMethod_query (host : string) (method : Z) (value : string)
  : Py (list WT_IDMethod.t) :=
  emit (WMI "WT_IDMethod" "query"
          [("HostName", PyStr host); ("Method", PyInt method); ("Value", PyStr value)]) >>>
  gets (λ w, filter (λ m, m = WT_IDMethod.Build_t host method value) (idmethods w)).

(** [put()] of a new identification method: instances are keyed by all three
    properties, so a second [put] of the same one adds nothing. *)
Definition WT_IDMethod_put (m : WT_IDMethod.t) : Py unit :=
  emit (WMI "WT_IDMethod" "put"
          [("HostName", PyStr (WT_IDMethod.HostName m));
           ("Method", PyInt (WT_IDMethod.Method m));
           ("Value", PyStr (WT_IDMethod.Value m))]) >>>
  modify (set_idmethods (λ l, if decide (m ∈ l) then l else l ++ [m])).

Definition WT_IDMethod_Delete_ (m : WT_IDMethod.t) : Py unit :=
  emit (WMI "WT_IDMethod" "Delete_"
          [("HostName", PyStr (WT_IDMethod.HostName m));
           ("Method", PyInt (WT_IDMethod.Method m));
           ("Value", PyStr (WT_IDMethod.Value m))]) >>>
  modify (set_idmethods (filter (λ x, x ≠ m))).

Definition WT_Disk_Delete_ (d : WT_Disk.t) : Py unit :=
  emit (WMI "WT_Disk" "Delete_" [("WTD", PyInt (WT_Disk.WTD d))]) >>>
  modify (set_disks (filter (λ x, WT_Disk.WTD x ≠ WT_Disk.WTD d))).

(** [Extend(additional_size)] grows the disk unless the provider refuses. *)
Definition WT_Disk_Extend (d : WT_Disk.t) (additional_size : Z) : Py unit :=
  emit (WMI "WT_Disk" "Extend"
          [("WTD", PyInt (WT_Disk.WTD d)); ("AdditionalSize", PyInt additional_size)]) >>>
  match Extend_fault d additional_size with
  | Some e => raise e
  | None =>
      modify (set_disks (map (λ x,
        if decide (WT_Disk.WTD x = WT_Disk.WTD d)
        then WT_Disk.Build_t (WT_Disk.WTD x) (WT_Disk.Description x)
               (WT_Disk.DevicePath x) (WT_Disk.SizeInMB x + additional_size)
        else x)))
  end.

(** [WT_Snapshot.Create(WTD=...)] returns the identifier of the snapshot it
    made, whose description is still empty. *)
Definition WT_Snapshot_Create (wtd : Z) : Py Z :=
  emit (WMI "WT_Snapshot" "Create" [("WTD", PyInt wtd)]) >>>
  let* id := gets (λ w, fresh_id (WT_Snapshot.Id <$> snapshots w)) in
  modify (set_snapshots (λ l, l ++ [WT_Snapshot.Build_t id EmptyString wtd])) >>>
  ret id.

(** [put()] of a snapshot read from the store writes it back under its
    identifier. *)
Definition WT_Snapshot_put (s : WT_Snapshot.t) : Py unit :=
  emit (WMI "WT_Snapshot" "put"
          [("Id", PyInt (WT_Snapshot.Id s));
           ("Description", PyStr (WT_Snapshot.Description s))]) >>>
  modify (set_snapshots (map (λ x,
    if decide (WT_Snapshot.Id x = WT_Snapshot.Id s) then s else x))).

Definition WT_Snapshot_Delete_ (s : WT_Snapshot.t) : Py unit :=
  emit (WMI "WT_Snapshot" "Delete_" [("Id", PyInt (WT_Snapshot.Id s))]) >>>
  modify (set_snapshots (filter (λ x, WT_Snapshot.Id x ≠ WT_Snapshot.Id s))).

(** [WT_Host.NewHost(HostName=...)]. *)
Definition WT_Host_NewHost (name : string) : Py unit :=
  emit (WMI "WT_Host" "NewHost" [("HostName", PyStr name)]) >>>
  let* hs := gets hosts in
  match NewHost_fault name hs with
  | Some e => raise e
  | None =>
      modify (set_hosts (λ l, l ++ [WT_Host.Build_t name (NewHost_iqn name) []]))
  end.

Definition WT_Host_AddWTDisk (h : WT_Host.t) (wtd : Z) : Py unit :=
  emit (WMI "WT_Host" "AddWTDisk"
          [("HostName", PyStr (WT_Host.HostName h)); ("WTD", PyInt wtd)]) >>>
  modify (set_hosts (map (λ x,
    if decide (WT_Host.HostName x = WT_Host.HostName h)
    then WT_Host.Build_t (WT_Host.HostName x) (WT_Host.TargetIQN x)
           (WT_Host.WTDisks x ++ [wtd])
    else x))).

Definition WT_Host_RemoveAllWTDisks (h : WT_Host.t) : Py unit :=
  emit (WMI "WT_Host" "RemoveAllWTDisks" [("HostName", PyStr (WT_Host.HostName h))]) >>>
  modify (set_hosts (map (λ x,
    if decide (WT_Host.HostName x = WT_Host.HostName h)
    then WT_Host.Build_t (WT_Host.HostName x) (WT_Host.TargetIQN x) []
    else x))).

Definition WT_Host_Delete_ (h : WT_Host.t) : Py unit :=
  emit (WMI "WT_Host" "Delete_" [("HostName", PyStr (WT_Host.HostName h))]) >>>
  modify (set_hosts (filter (λ x, WT_Host.HostName x ≠ WT_Host.HostName h))).

(** [self._conn_cimv2.query("Select * from CIM_DataFile where Name = '...'")]:
    the files of that exact name, at most one. *)
Definition CIM_DataFile_query (name : string) : Py (list (string * string)) :=
  emit (WMI "CIM_DataFile" "query" [("Name", PyStr name)]) >>>
  gets (λ w, match files w !! name with
             | Some bytes => [(name, bytes)]
             | None => []
             end).

Definition CIM_DataFile_Delete (f : string * string) : Py unit :=
  emit (WMI "CIM_DataFile" "Delete" [("Name", PyStr (fst f))]) >>>
  modify (set_files (delete (fst f))).

(** [Copy(destination)] makes the copy unless a file of that name is there
    already; it reports the refusal in its return value, which the driver
    never reads. *)
Definition CIM_DataFile_Copy (f : string * string) (destination : string) : Py unit :=
  emit (WMI "CIM_DataFile" "Copy"
          [("Name", PyStr (fst f)); ("FileName", PyStr destination)]) >>>
  modify (set_files (λ fs, match fs !! destination with
                           | Some _ => fs
                           | None => <[destination := snd f]> fs
                           end)).


Context `{Prov : Provider}.

Definition WT_Disk_by_WTD (wtd : Z) : Py (list WT_Disk.t) :=
  emit (WMI "WT_Disk" "query" [("WTD", PyInt wtd)]) >>>
  gets (λ w, filter (λ d, WT_Disk.WTD d = wtd) (disks w)).

(** [WT_Disk.NewWTDisk(DevicePath=..., Description=..., SizeInMB=...)]: unless
    the provider refuses, a disk object under a new handle, and its file
    where none lies at the path. *)
Definition WT_Disk_NewWTDisk (DevicePath Description : string) (SizeInMB : Z) : Py unit :=
  emit (WMI "WT_Disk" "NewWTDisk"
          [("DevicePath", PyStr DevicePath); ("Description", PyStr Description);
           ("SizeInMB", PyInt SizeInMB)]) >>>
  let* ds := gets disks in
  match NewWTDisk_fault DevicePath Description SizeInMB ds with
  | Some e => raise e
  | None =>
      let wtd := fresh_id (WT_Disk.WTD <$> ds) in
      modify (set_disks (λ l, l ++ [WT_Disk.Build_t wtd Description DevicePath SizeInMB])) >>>
      modify (set_files (λ fs, match fs !! DevicePath with
                               | Some _ => fs
                               | None => <[DevicePath := NewWTDisk_bytes SizeInMB]> fs
                               end))
  end.

(** [put()] of a disk read from the store writes it back under its handle. *)
Definition WT_Disk_put (d : WT_Disk.t) : Py unit :=
  emit (WMI "WT_Disk" "put"
          [("WTD", PyInt (WT_Disk.WTD d));
           ("Description", PyStr (WT_Disk.Description d))]) >>>
  modify (set_disks (map (λ x,
    if decide (WT_Disk.WTD x = WT_Disk.WTD d) then d else x))).

(** [Export()] of a snapshot returns the handle of the disk it made, whose
    description is still empty. *)
Definition WT_Snapshot_Export (s : WT_Snapshot.t) : Py Z :=
  emit (WMI "WT_Snapshot" "Export" [("Id", PyInt (WT_Snapshot.Id s))]) >>>
  let* wtd := gets (λ w, fresh_id (WT_Disk.WTD <$> disks w)) in
  modify (set_disks (λ l, l ++ [WT_Disk.Build_t wtd EmptyString
                                   (Export_DevicePath s) (Export_SizeInMB s)])) >>>
  ret wtd.

End Collaborators.

(** ** [windows_common.py]: class [WindowsCommon] *)

Module WindowsCommon.
Section Common.
Context `{Ext : Externals}.
Variable CONF : Conf.

(** [exc.com_error.excepinfo[2]]: only the exceptions of [wmi] have a
    [com_error]. *)
Definition com_error_excepinfo2 (exc : exn) : Py string :=
  match exc with
  | x_wmi info => ret info
  | _ => raise AttributeError
  end.

(** The dictionary [properties] as it stands when the body of
    [get_host_information] ends. *)
Definition get_host_information_properties (volume : Volume) (target_name : string)
  : Py (gmap string pyval) :=
  let* q := WT_Portal_all in
  let* wt_portal := index0 q in
  let address := WT_Portal.Address wt_portal in
  let port := WT_Portal.Port wt_portal in
  let* hosts := WT_Host_query "Hostname" target_name in
  let* host := index0 hosts in
  let properties : gmap string pyval := ∅ in
  let properties := <["target_discovered" := PyBool false]> properties in
  let properties := <["target_portal" := PyStr (address +:+ ":" +:+ pretty port)]> properties in
  let properties := <["target_iqn" := PyStr (WT_Host.TargetIQN host)]> properties in
  let properties := <["target_lun" := PyInt 0]> properties in
  let properties := <["volume_id" := PyStr (vol_id volume)]> properties in
  let auth := vol_provider_auth volume in
  match auth with
  | None | Some EmptyString => ret properties
  | Some auth =>
      let* t := split3 auth in
      let '(auth_method, auth_username, auth_secret) := t in
      let properties := <["auth_method" := PyStr auth_method]> properties in
      let properties := <["auth_username" := PyStr auth_username]> properties in
      let properties := <["auth_password" := PyStr auth_secret]> properties in
      ret properties
  end.

(** The body has no [return]: whatever it built, the call evaluates to
    [None]. *)
Definition get_host_information (volume : Volume) (target_name : string)
  : Py (option (gmap string pyval)) :=
  let* properties := get_host_information_properties volume target_name in
  ret None.

Definition associate_initiator_with_iscsi_target (initiator_name target_name : string)
  : Py unit :=
  let wt_idmethod :=
    {| WT_IDMethod.HostName := target_name;
       WT_IDMethod.Method := 4;
       WT_IDMethod.Value := initiator_name |} in
  WT_IDMethod_put wt_idmethod.

Definition delete_iscsi_target (initiator_name target_name : string) : Py unit :=
  let* q := WT_IDMethod_query target_name 4 initiator_name in
  let* wt_idmethod := index0 q in
  WT_IDMethod_Delete_ wt_idmethod.

Definition delete_volume (vol_name vhd_path : string) : Py unit :=
  let* q := WT_Disk_by_Description vol_name in
  let* wt_disk := index0 q in
  WT_Disk_Delete_ wt_disk >>>
  let* vhdfiles := CIM_DataFile_query vhd_path in
  if (0 <? length vhdfiles)%nat
  then let* f := index0 vhdfiles in CIM_DataFile_Delete f
  else ret tt.

Definition create_snapshot (vol_name snapshot_name : string) : Py unit :=
  let* q := WT_Disk_by_Description vol_name in
  let* wt_disk := index0 q in
  let disk_id := WT_Disk.WTD wt_disk in
  let* out0 := WT_Snapshot_Create disk_id in
  let* q := WT_Snapshot_by_Id out0 in
  let* wt_snapshot_created := index0 q in
  let wt_snapshot_created :=
    {| WT_Snapshot.Id := WT_Snapshot.Id wt_snapshot_created;
       WT_Snapshot.Description := snapshot_name;
       WT_Snapshot.OrigWTD := WT_Snapshot.OrigWTD wt_snapshot_created |} in
  WT_Snapshot_put wt_snapshot_created.

Definition delete_snapshot (snapshot_name : string) : Py unit :=
  let* q := WT_Snapshot_by_Description snapshot_name in
  let* wt_snapshot := index0 q in
  WT_Snapshot_Delete_ wt_snapshot.

Definition create_iscsi_target (target_name : string) (ensure : bool) : Py unit :=
  try_except
    (WT_Host_NewHost target_name)
    (λ exc,
       let* excep_info := com_error_excepinfo2 exc in
       if negb ensure || (find excep_info "The file exists" =? -1)%Z
       then raise exc
       else emit (Log "info"
                    ("Ignored target creation error " +:+ dquote +:+ "%s" +:+ dquote
                     +:+ " while ensuring export")
                    [PyExn exc])).

Definition remove_iscsi_target (target_name : string) : Py unit :=
  let* q := WT_Host_query "HostName" target_name in
  let* wt_host := index0 q in
  WT_Host_RemoveAllWTDisks wt_host >>>
  WT_Host_Delete_ wt_host.

Definition add_disk_to_target (vol_name target_name : string) : Py unit :=
  let* q := WT_Disk_by_Description vol_name in
  if (length q =? 0)%nat
  then emit (Log "debug" "Disk not found: %s" [PyStr vol_name])
  else
    let* wt_disk := index0 q in
    let* hq := WT_Host_query "HostName" target_name in
    let* wt_host := index0 hq in
    WT_Host_AddWTDisk wt_host (WT_Disk.WTD wt_disk).

(** [_execute] starts the child process and returns what it printed; it
    never looks at the exit status. *)
Definition convert_image (source dest out_format : string) : Py unit :=
  emit (Exec [qemu_img_cmd CONF; "convert"; "-O"; out_format; source; dest]) >>>
  let* src := gets (λ w, files w !! source) in
  match src ≫= qemu_convert_to out_format with
  | Some bytes => modify (set_files (insert dest bytes))
  | None => ret tt
  end.

(** Of a path that [qemu-img] cannot read nothing is printed, and the parsed
    record has no field set. *)
Definition qemu_img_info (path : string) : Py QemuImgInfo :=
  emit (Exec [qemu_img_cmd CONF; "info"; path]) >>>
  let* f := gets (λ w, files w !! path) in
  match f with
  | Some bytes => ret (qemu_info_of bytes)
  | None => ret {| file_format := None; backing_file := None; disk_size := None |}
  end.

Definition copy_vhd_disk (source_path destination_path : string) : Py unit :=
  let* vhdfiles := CIM_DataFile_query source_path in
  if (0 <? length vhdfiles)%nat
  then let* f := index0 vhdfiles in CIM_DataFile_Copy f destination_path
  else ret tt.

(** [if CONF.image_conversion_dir and not os.path.exists(...): os.makedirs(...)]. *)
Definition ensure_conversion_dir : Py unit :=
  let* ex := os_path_exists (image_conversion_dir CONF) in
  if negb (bool_decide (image_conversion_dir CONF = EmptyString)) && negb ex
  then os_makedirs (image_conversion_dir CONF)
  else ret tt.

Definition fetch_to_vhd (image_id dest : string) : Py unit :=
  ensure_conversion_dir >>>
  temporary_file CONF (λ tmp,
    emit (Log "debug" "Downloading image %s was to tmp dest: " [PyStr image_id]) >>>
    image_utils_fetch image_id tmp >>>
    emit (Log "debug" "Downloading DONE %s was to tmp dest: " [PyStr image_id]) >>>
    let* data := qemu_img_info tmp in
    match file_format data with
    | None => raise (ImageUnacceptable image_id "'qemu-img info' parsing failed.")
    | Some fmt =>
        match backing_file data with
        | Some backing_file =>
            raise (ImageUnacceptable image_id
                     ("fmt=" +:+ fmt +:+ " backed by:" +:+ backing_file))
        | None =>
            (if negb (contains "vpc" fmt)
             then convert_image tmp dest "vpc"
             else copy_vhd_disk tmp dest) >>>
            let* data := qemu_img_info dest in
            if bool_decide (file_format data ≠ Some "vpc")
            then raise (ImageUnacceptable image_id
                          ("Converted to vhd, but format is now "
                           +:+ str_opt (file_format data)))
            else ret tt
        end
    end).

Definition upload_volume (image_meta : ImageMeta) (volume_path : string) : Py unit :=
  emit (Log "debug" "Uploading volume %s: " [PyStr volume_path]) >>>
  let image_id := img_id image_meta in
  if bool_decide (disk_format image_meta = "vhd")
  then
    emit (Log "debug" (image_id +:+ " was raw, no need to convert to "
                       +:+ disk_format image_meta) []) >>>
    let* image_file := file_open volume_path in
    image_service_update image_id image_file
  else
    ensure_conversion_dir >>>
    let temp_vhd_path :=
      os_path_join (image_conversion_dir CONF) (img_id image_meta +:+ ".vhd") in
    copy_vhd_disk volume_path temp_vhd_path >>>
    let* tmp := mkstemp (image_conversion_dir CONF) in
    remove_path_on_error tmp (
      emit (Log "debug" (image_id +:+ " was vhd, converting to "
                         +:+ disk_format image_meta) []) >>>
      convert_image temp_vhd_path tmp (disk_format image_meta) >>>
      let* data := qemu_img_info tmp in
      (if bool_decide (file_format data ≠ Some (disk_format image_meta))
       then raise (ImageUnacceptable image_id
                     ("Converted to " +:+ disk_format image_meta
                      +:+ ", but format is now " +:+ str_opt (file_format data)))
       else ret tt) >>>
      emit (Log "debug" "Converted size of %s is: %s"
              [py_opt (backing_file data); py_opt (disk_size data)]) >>>
      let* image_file := file_open tmp in
      image_service_update image_id image_file >>>
      os_unlink tmp).

Definition extend (vol_name : string) (additional_size : Z) : Py unit :=
  let* q := WT_Disk_by_Description vol_name in
  if (length q =? 0)%nat
  then emit (Log "debug" "Disk not found: %s" [PyStr vol_name])
  else
    let* wt_disk := index0 q in
    WT_Disk_Extend wt_disk additional_size.

(** The rest of the class. *)

Context `{Prov : Provider}.

(** [VolumeBackendAPIException()] is raised with no [data]; the empty string
    stands for that. *)
Definition check_for_setup_error : Py unit :=
  let* q := WT_Portal_all in
  let* wt_portal := index0 q in
  let listen := WT_Portal.Listen wt_portal in
  if negb listen
  then raise (VolumeBackendAPIException EmptyString)
  else ret tt.

Definition create_volume (vhd_path vol_name : string) (vol_size : Z) : Py unit :=
  WT_Disk_NewWTDisk vhd_path vol_name (vol_size * 1024).

Definition create_volume_from_snapshot (vol_name snapshot_name : string) : Py unit :=
  let* q := WT_Snapshot_by_Description snapshot_name in
  let* wt_snapshot := index0 q in
  let* disk_id := WT_Snapshot_Export wt_snapshot in
  let* q := WT_Disk_by_WTD disk_id in
  let* wt_disk := index0 q in
  let wt_disk :=
    {| WT_Disk.WTD := WT_Disk.WTD wt_disk;
       WT_Disk.Description := vol_name;
       WT_Disk.DevicePath := WT_Disk.DevicePath wt_disk;
       WT_Disk.SizeInMB := WT_Disk.SizeInMB wt_disk |} in
  WT_Disk_put wt_disk.

End Common.
End WindowsCommon.

(** ** [windows.py]: class [WindowsDriver] *)

(** The connection information handed back to the orchestrator; [data] is
    whatever [get_host_information] returned, [None] included. *)
Record ConnectionInfo := {
  driver_volume_type : string;
  data : option (gmap string pyval)
}.

(** The two attributes of the driver object that [get_volume_stats] uses:
    [self.configuration], with what its [safe_get('volume_backend_name')]
    answers, and the cache [self._stats]. *)
Record Configuration := { volume_backend_name : option string }.

Record DriverState := {
  configuration : option Configuration;
  _stats : gmap string pyval
}.

Module WindowsDriver.
Section Driver.
Context `{Ext : Externals}.
Variable CONF : Conf.

Definition initialize_connection (volume : Volume) (connector : Connector)
  : Py ConnectionInfo :=
  let initiator_name := initiator connector in
  let target_name := vol_provider_location volume in
  WindowsCommon.associate_initiator_with_iscsi_target target_name initiator_name >>>
  let* properties := WindowsCommon.get_host_information volume target_name in
  ret {| driver_volume_type := "iscsi"; data := properties |}.

Definition terminate_connection (volume : Volume) (connector : Connector) : Py unit :=
  let initiator_name := initiator connector in
  let target_name := vol_provider_location volume in
  WindowsCommon.delete_iscsi_target initiator_name target_name.

Definition local_path (volume : Volume) : Py string :=
  let base_vhd_folder := windows_iscsi_lun_path CONF in
  let* ex := os_path_exists base_vhd_folder in
  (if negb ex
   then emit (Log "debug" "Creating folder %s " [PyStr base_vhd_folder]) >>>
        os_makedirs base_vhd_folder
   else ret tt) >>>
  ret (os_path_join base_vhd_folder (vol_name volume +:+ ".vhd")).

Definition delete_volume (volume : Volume) : Py unit :=
  let vol_name := vol_name volume in
  let* vhd_path := local_path volume in
  WindowsCommon.delete_volume vol_name vhd_path.

Definition create_snapshot (snapshot : Snapshot) : Py unit :=
  let vol_name := snap_volume_name snapshot in
  let snapshot_name := snap_name snapshot in
  WindowsCommon.create_snapshot vol_name snapshot_name.

Definition delete_snapshot (snapshot : Snapshot) : Py unit :=
  let snapshot_name := snap_name snapshot in
  WindowsCommon.delete_snapshot snapshot_name.

Definition _do_export (volume : Volume) (ensure : bool) : Py string :=
  let target_name := iscsi_target_prefix CONF +:+ vol_name volume in
  WindowsCommon.create_iscsi_target target_name ensure >>>
  let vol_name := vol_name volume in
  WindowsCommon.add_disk_to_target vol_name target_name >>>
  ret target_name.

Definition ensure_export (volume : Volume) : Py unit :=
  _do_export volume true >>>
  ret tt.

Definition create_export (volume : Volume) : Py (gmap string pyval) :=
  let* loc := _do_export volume false in
  ret {[ "provider_location" := PyStr loc ]}.

Definition remove_export (volume : Volume) : Py unit :=
  let target_name := iscsi_target_prefix CONF +:+ vol_name volume in
  WindowsCommon.remove_iscsi_target target_name.

Definition copy_image_to_volume (volume : Volume) (image_id : string) : Py unit :=
  let* dest := local_path volume in
  WindowsCommon.fetch_to_vhd CONF image_id dest.

Definition copy_volume_to_image (volume : Volume) (image_meta : ImageMeta) : Py unit :=
  let* volume_path := local_path volume in
  WindowsCommon.upload_volume CONF image_meta volume_path.

Definition extend_volume (volume : Volume) (new_size : Z) : Py unit :=
  let old_size := vol_size volume in
  let additional_size := (new_size - old_size) * 1024 in
  try_except
    (WindowsCommon.extend (vol_name volume) additional_size)
    (λ _,
       let msg := "Failed to Extend Volume " +:+ vol_name volume in
       emit (Log "error" msg []) >>>
       raise (VolumeBackendAPIException msg)) >>>
  emit (Log "debug" "Extend volume from %(old_size) to %(new_size)"
          [PyInt old_size; PyInt new_size]).

(** The rest of the class. *)

Context `{Prov : Provider}.

Definition check_for_setup_error : Py unit :=
  WindowsCommon.check_for_setup_error.

Definition create_volume (volume : Volume) : Py unit :=
  let* vhd_path := local_path volume in
  let vol_name := vol_name volume in
  let vol_size := vol_size volume in
  WindowsCommon.create_volume vhd_path vol_name vol_size.

Definition create_volume_from_snapshot (volume : Volume) (snapshot : Snapshot) : Py unit :=
  let snapshot_name := snap_name snapshot in
  let vol_name := vol_name volume in
  WindowsCommon.create_volume_from_snapshot vol_name snapshot_name.

Definition create_cloned_volume (volume src_vref : Volume) : Py unit :=
  create_volume volume >>>
  let* source_path := local_path src_vref in
  let* destination_path := local_path volume in
  WindowsCommon.copy_vhd_disk source_path destination_path.

(** [self.__class__.__name__] and the module's [VERSION]. *)
Definition class_name : string := "WindowsDriver".
Definition VERSION : string := "1.0".

(** [x or y] for an optional string: [None] and the empty string are
    false. *)
Definition str_or (x : option string) (y : string) : string :=
  match x with
  | None | Some EmptyString => y
  | Some s => s
  end.

Definition _update_volume_stats (self : DriverState) : Py DriverState :=
  emit (Log "debug" "Updating volume stats" []) >>>
  let data : gmap string pyval := ∅ in
  let backend_name := Some class_name in
  let backend_name :=
    match configuration self with
    | Some c => volume_backend_name c
    | None => backend_name
    end in
  let data := <["volume_backend_name" := PyStr (str_or backend_name class_name)]> data in
  let data := <["vendor_name" := PyStr "Microsoft"]> data in
  let data := <["driver_version" := PyStr VERSION]> data in
  let data := <["storage_protocol" := PyStr "iSCSI"]> data in
  let data := <["total_capacity_gb" := PyStr "infinite"]> data in
  let data := <["free_capacity_gb" := PyStr "infinite"]> data in
  let data := <["reserved_percentage" := PyInt 100]> data in
  let data := <["QoS_support" := PyBool false]> data in
  ret {| configuration := configuration self; _stats := data |}.

(** The dictionary returned, and the driver object after the call. *)
Definition get_volume_stats (self : DriverState) (refresh : bool)
  : Py (gmap string pyval * DriverState) :=
  let* self := (if refresh then _update_volume_stats self else ret self) in
  ret (_stats self, self).

End Driver.
End WindowsDriver.

(** ** Worlds that differ in the trace only *)

(** [w'] has the objects, files and images of [w]: a computation from [w] to
    [w'] did nothing but ask, log, or make a directory. *)
Definition same_store (w w' : world) : Prop :=
  portals w' = portals w
  ∧ hosts w' = hosts w
  ∧ disks w' = disks w
  ∧ snapshots w' = snapshots w
  ∧ idmethods w' = idmethods w
  ∧ files w' = files w
  ∧ images w' = images w.

(** ** A storage host to run the driver on *)

(** A small host: paths joined with a backslash, files whose bytes read
    ["<format>"] or ["<format> <backing file>"] to [qemu-img], a converter
    that always works, a target provider that refuses a second target of the
    same name and a disk that does not grow, and an image service that
    refuses empty uploads. *)
Module Host.

Definition join (a b : string) : string := a +:+ "\" +:+ b.

Definition info_of (bytes : string) : QemuImgInfo :=
  match String.words bytes with
  | [f] => {| file_format := Some f; backing_file := None; disk_size := None |}
  | [f; b] => {| file_format := Some f; backing_file := Some b; disk_size := None |}
  | _ => {| file_format := None; backing_file := None; disk_size := None |}
  end.

#[global] Instance externals : Externals := {|
  os_path_join := join;
  mkstemp_name := λ dir _, join dir "tmpq3x7";
  qemu_info_of := info_of;
  qemu_convert_to := λ fmt _, Some fmt;
  NewHost_fault := λ name hs,
    if decide (name ∈ WT_Host.HostName <$> hs)
    then Some (x_wmi "The file exists.") else None;
  NewHost_iqn := λ name, "iqn.1991-05.com.microsoft:" +:+ name;
  Extend_fault := λ _ n, if (n <=? 0)%Z then Some (x_wmi "Invalid parameter") else None;
  update_fault := λ _ bytes,
    if decide (bytes = EmptyString) then Some (ServiceError "empty image") else None
|}.

Definition conf : Conf := {|
  windows_iscsi_lun_path := "C:\iSCSIVirtualDisks";
  iscsi_target_prefix := "iqn.2010-10.org.openstack:";
  qemu_img_cmd := "qemu-img.exe";
  image_conversion_dir := "C:\ImageConversionDir"
|}.

Definition vol1 : Volume := {|
  vol_id := "1";
  vol_name := "vol1";
  vol_size := 1;
  vol_provider_location := "iqn.2010-10.org.openstack:vol1";
  vol_provider_auth := None
|}.

Definition connector1 : Connector :=
  {| initiator := "iqn.1991-05.com.microsoft:compute1" |}.

Definition disk1 : WT_Disk.t := {|
  WT_Disk.WTD := 1;
  WT_Disk.Description := "vol1";
  WT_Disk.DevicePath := "C:\iSCSIVirtualDisks\vol1.vhd";
  WT_Disk.SizeInMB := 1024
|}.

Definition portal1 : WT_Portal.t :=
  {| WT_Portal.Address := "10.0.0.5"; WT_Portal.Port := 3260; WT_Portal.Listen := true |}.

Definition target1 : WT_Host.t := {|
  WT_Host.HostName := "iqn.2010-10.org.openstack:vol1";
  WT_Host.TargetIQN := "iqn.1991-05.com.microsoft:iqn.2010-10.org.openstack:vol1";
  WT_Host.WTDisks := [1]
|}.

(** A host with nothing on it but the listening portal. *)
Definition bare : world := {|
  portals := [portal1]; hosts := []; disks := []; snapshots := [];
  idmethods := []; files := ∅; dirs := ∅; images := ∅; events := []
|}.

(** A host where [vol1] was created and exported. *)
Definition exported : world := {|
  portals := [portal1]; hosts := [target1]; disks := [disk1]; snapshots := [];
  idmethods := [];
  files := {[ "C:\iSCSIVirtualDisks\vol1.vhd" := "vpc" ]};
  dirs := {[ "C:\iSCSIVirtualDisks" ]};
  images := ∅; events := []
|}.

(** A host whose disk object for [vol1] lost its file. *)
Definition orphaned : world := {|
  portals := [portal1]; hosts := []; disks := [disk1]; snapshots := [];
  idmethods := []; files := ∅; dirs := {[ "C:\iSCSIVirtualDisks" ]};
  images := ∅; events := []
|}.

(** The exported host, with three images in the image service: one on a
    backing file, one already a virtual disk, one raw. *)
Definition with_images : world := {|
  portals := [portal1]; hosts := [target1]; disks := [disk1]; snapshots := [];
  idmethods := [];
  files := {[ "C:\iSCSIVirtualDisks\vol1.vhd" := "vpc" ]};
  dirs := {[ "C:\iSCSIVirtualDisks" ]};
  images := {[ "img-backed" := "qcow2 base.img"; "img-vpc" := "vpc"; "img-raw" := "raw" ]};
  events := []
|}.

Definition image1 : ImageMeta := {| img_id := "img1"; disk_format := "qcow2" |}.

(** The same host behind a provider that refuses every new target for lack
    of rights. *)
Definition denied : Externals := {|
  os_path_join := join;
  mkstemp_name := λ dir _, join dir "tmpq3x7";
  qemu_info_of := info_of;
  qemu_convert_to := λ fmt _, Some fmt;
  NewHost_fault := λ _ _, Some (x_wmi "Access is denied.");
  NewHost_iqn := λ name, "iqn.1991-05.com.microsoft:" +:+ name;
  Extend_fault := λ _ _, None;
  update_fault := λ _ _, None
|}.

(** A provider that makes every disk asked for, writes ["vpc"] files, and
    exports a snapshot to a disk of 1024 MB next to the others. *)
#[global] Instance provider : Provider := {|
  NewWTDisk_fault := λ _ _ _ _, None;
  NewWTDisk_bytes := λ _, "vpc";
  Export_DevicePath := λ s, "C:\iSCSIVirtualDisks\export-" +:+ pretty (WT_Snapshot.Id s);
  Export_SizeInMB := λ _, 1024
|}.

Definition vol2 : Volume := {|
  vol_id := "2";
  vol_name := "vol2";
  vol_size := 2;
  vol_provider_location := "iqn.2010-10.org.openstack:vol2";
  vol_provider_auth := None
|}.

(** [vol1] with an authentication string of two fields. *)
Definition vol1_two_fields : Volume := {|
  vol_id := "1";
  vol_name := "vol1";
  vol_size := 1;
  vol_provider_location := "iqn.2010-10.org.openstack:vol1";
  vol_provider_auth := Some "CHAP user"
|}.

Definition image_vhd : ImageMeta := {| img_id := "img2"; disk_format := "vhd" |}.

(** An image format whose name [qemu-img info] would not give back. *)
Definition image_two_words : ImageMeta :=
  {| img_id := "img3"; disk_format := "vmdk streamOptimized" |}.

(** A host where the target of [vol2] is there and its disk is not. *)
Definition exported2 : world := {|
  portals := [portal1];
  hosts := [WT_Host.Build_t "iqn.2010-10.org.openstack:vol2"
              "iqn.1991-05.com.microsoft:iqn.2010-10.org.openstack:vol2" []];
  disks := [disk1]; snapshots := [];
  idmethods := []; files := ∅; dirs := ∅; images := ∅; events := []
|}.

(** A host without a portal. *)
Definition no_portal : world := {|
  portals := []; hosts := [target1]; disks := [disk1]; snapshots := [];
  idmethods := []; files := ∅; dirs := ∅; images := ∅; events := []
|}.

(** The exported host with a snapshot of [vol1]. *)
Definition snapshotted : world := {|
  portals := [portal1]; hosts := [target1]; disks := [disk1];
  snapshots := [WT_Snapshot.Build_t 1 "snap1" 1];
  idmethods := [];
  files := {[ "C:\iSCSIVirtualDisks\vol1.vhd" := "vpc" ]};
  dirs := {[ "C:\iSCSIVirtualDisks" ]};
  images := ∅; events := []
|}.

(** The exported host where the file of [vol1] is empty. *)
Definition empty_file : world := {|
  portals := [portal1]; hosts := [target1]; disks := [disk1]; snapshots := [];
  idmethods := [];
  files := {[ "C:\iSCSIVirtualDisks\vol1.vhd" := EmptyString ]};
  dirs := {[ "C:\iSCSIVirtualDisks" ]};
  images := ∅; events := []
|}.

(** The exported host with an image that [qemu-img] cannot make sense of,
    and a raw one. *)
Definition with_junk : world := {|
  portals := [portal1]; hosts := [target1]; disks := [disk1]; snapshots := [];
  idmethods := [];
  files := {[ "C:\iSCSIVirtualDisks\vol1.vhd" := "vpc" ]};
  dirs := {[ "C:\iSCSIVirtualDisks" ]};
  images := {[ "img-junk" := "not an image"; "img-raw" := "raw" ]};
  events := []
|}.

(** The same host with a converter that writes raw files whatever it is
    asked for. *)
Definition bad_converter : Externals := {|
  os_path_join := join;
  mkstemp_name := λ dir _, join dir "tmpq3x7";
  qemu_info_of := info_of;
  qemu_convert_to := λ _ _, Some "raw";
  NewHost_fault := λ _ _, None;
  NewHost_iqn := λ name, "iqn.1991-05.com.microsoft:" +:+ name;
  Extend_fault := λ _ _, None;
  update_fault := λ _ _, None
|}.

(** The same host behind a connection to the provider that breaks. *)
Definition broken : Externals := {|
  os_path_join := join;
  mkstemp_name := λ dir _, join dir "tmpq3x7";
  qemu_info_of := info_of;
  qemu_convert_to := λ fmt _, Some fmt;
  NewHost_fault := λ _ _, Some (IOError "wmi");
  NewHost_iqn := λ name, "iqn.1991-05.com.microsoft:" +:+ name;
  Extend_fault := λ _ _, None;
  update_fault := λ _ _, None
|}.

Definition snap1 : Snapshot := {| snap_name := "snap1"; snap_volume_name := "vol1" |}.

End Host.

(** * Properties *)

(** ** The monad *)

Lemma bind_ok {A B} (m : Py A) (k : A → Py B) (w w1 : world) (a : A) :
  m w = (inr a, w1) → bind m k w = k a w1.
Proof. intros H. unfold bind. now rewrite H. Qed.

Lemma bind_err {A B} (m : Py A) (k : A → Py B) (w w1 : world) (e : exn) :
  m w = (inl e, w1) → bind m k w = (inl e, w1).
Proof. intros H. unfold bind. now rewrite H. Qed.

(** Splitting the authentication string leaves the world alone. *)
Lemma split3_world (auth : string) (w : world) : snd (split3 auth w) = w.
Proof.
  unfold split3.
  destruct (String.words auth) as [|x [|y [|z [|? ?]]]]; reflexivity.
Qed.

(** ** Lists of WMI objects *)

Section Queries.
Context {A : Type} (P : A → Prop) `{!∀ x, Decision (P x)}.

Lemma filter_none (l : list A) : (∀ x, x ∈ l → ¬ P x) → filter P l = [].
Proof.
  induction l as [|a l IH]; intros Hl; [reflexivity|].
  rewrite filter_cons_False by (apply Hl; left).
  apply IH. intros x Hx. apply Hl. now right.
Qed.

Lemma filter_all (l : list A) : (∀ x, x ∈ l → P x) → filter P l = l.
Proof.
  induction l as [|a l IH]; intros Hl; [reflexivity|].
  rewrite filter_cons_True by (apply Hl; left).
  f_equal. apply IH. intros x Hx. apply Hl. now right.
Qed.

Lemma filter_some (l : list A) :
  (∃ x, x ∈ l ∧ P x) → ∃ y rest, filter P l = y :: rest ∧ P y ∧ y ∈ l.
Proof.
  intros (x & Hx & HP).
  destruct (filter P l) as [|y rest] eqn:E.
  - exfalso. exact (filter_nil_not_elem_of P l x E HP Hx).
  - exists y, rest. split; [reflexivity|].
    assert (Hy : y ∈ filter P l) by (rewrite E; left).
    apply list_elem_of_filter in Hy. tauto.
Qed.

End Queries.

(** ** Substrings *)

Lemma prefix_spec (sub s : string) :
  String.prefix sub s = true ↔ ∃ post, s = sub +:+ post.
Proof.
  revert s. induction sub as [|a sub IH]; intros [|b s]; cbn.
  - split; [intros _; now exists EmptyString|reflexivity].
  - split; [intros _; now exists (String b s)|reflexivity].
  - split; [discriminate|]. intros [post H]. discriminate.
  - destruct (ascii_dec a b) as [->|Hne].
    + split.
      * intros H. apply IH in H as [post H]. exists post. now rewrite H.
      * intros [post H]. apply IH. exists post. now inversion H.
    + split; [discriminate|]. intros [post H]. inversion H. congruence.
Qed.

Lemma find_from_eq (i : Z) (s sub : string) :
  find_from i s sub
  = if String.prefix sub s then i
    else match s with
         | EmptyString => -1
         | String _ s' => find_from (i + 1) s' sub
         end.
Proof. now destruct s. Qed.

Lemma find_from_spec (sub s : string) (i : Z) :
  (find_from i s sub = -1 ∧ ¬ ∃ pre post, s = pre +:+ sub +:+ post)
  ∨ ((i ≤ find_from i s sub)%Z ∧ ∃ pre post, s = pre +:+ sub +:+ post).
Proof.
  revert i. induction s as [|a s IH]; intros i; rewrite find_from_eq.
  - destruct (String.prefix sub EmptyString) eqn:E.
    + right. split; [lia|]. apply prefix_spec in E as [post E].
      now exists EmptyString, post.
    + left. split; [reflexivity|]. intros (pre & post & H).
      destruct pre; [|discriminate].
      assert (String.prefix sub EmptyString = true) by (apply prefix_spec; now exists post).
      congruence.
  - destruct (String.prefix sub (String a s)) eqn:E.
    + right. split; [lia|]. apply prefix_spec in E as [post E].
      now exists EmptyString, post.
    + destruct (IH (i + 1)) as [[H1 H2]|[H1 H2]].
      * left. split; [assumption|]. intros (pre & post & H).
        destruct pre as [|c pre].
        -- assert (String.prefix sub (String a s) = true)
             by (apply prefix_spec; now exists post).
           congruence.
        -- apply H2. exists pre, post. now inversion H.
      * right. split; [lia|]. destruct H2 as (pre & post & ->).
        now exists (String a pre), post.
Qed.

Lemma contains_spec (sub s : string) :
  contains sub s = true ↔ ∃ pre post, s = pre +:+ sub +:+ post.
Proof.
  unfold contains, find.
  destruct (find_from_spec sub s 0) as [[H1 H2]|[H1 H2]].
  - rewrite H1. cbn. split; [discriminate|]. intros H. now apply H2 in H.
  - split; [intros _; assumption|]. intros _.
    apply negb_true_iff, Z.eqb_neq. lia.
Qed.

(** Unfolding of the monad and of the world's setters, for running a piece of
    driver code on a symbolic world. *)
Ltac py_unfold :=
  unfold bind, ret, raise, gets, modify, emit, try_except, try_finally,
    remove_path_on_error, index0,
    record, set_hosts, set_disks, set_snapshots, set_idmethods, set_files,
    set_dirs, set_images in *.

Ltac py_run := repeat (py_unfold; cbn).

Section Properties.
Context `{Ext : Externals}.
Variable CONF : Conf.

(** ** Paths *)

(** C6. [local_path] returns the join of the configured root directory and
    the volume's name followed by [.vhd], whatever the world it runs in: two
    calls for volumes of the same name return the same path, whatever
    happened before either of them. *)
Theorem local_path_deterministic (v1 v2 : Volume) (w1 w2 : world) :
  vol_name v1 = vol_name v2 →
  fst (WindowsDriver.local_path CONF v1 w1)
    = inr (os_path_join (windows_iscsi_lun_path CONF) (vol_name v1 +:+ ".vhd"))
  ∧ fst (WindowsDriver.local_path CONF v2 w2)
    = fst (WindowsDriver.local_path CONF v1 w1).
Proof.
  intros Hname.
  assert (Hpath : ∀ v w, fst (WindowsDriver.local_path CONF v w)
            = inr (os_path_join (windows_iscsi_lun_path CONF) (vol_name v +:+ ".vhd"))).
  { intros v w. unfold WindowsDriver.local_path, os_path_exists, os_makedirs.
    py_run. now destruct (bool_decide _). }
  split; [apply Hpath|]. rewrite !Hpath. now rewrite Hname.
Qed.

(** The only thing [local_path] changes is the root directory, which it
    makes when it is missing; a second call changes nothing more. *)
Lemma local_path_world (v : Volume) (w : world) :
  let w1 := snd (WindowsDriver.local_path CONF v w) in
  files w1 = files w
  ∧ disks w1 = disks w
  ∧ snd (WindowsDriver.local_path CONF v w1) = w1.
Proof.
  unfold WindowsDriver.local_path, os_path_exists, os_makedirs. py_run.
  destruct (bool_decide _) eqn:E; py_run.
  - rewrite E. now cbn.
  - repeat split.
    assert (E' : bool_decide
              (is_Some (files w !! windows_iscsi_lun_path CONF)
               ∨ windows_iscsi_lun_path CONF ∈ {[windows_iscsi_lun_path CONF]} ∪ dirs w) = true).
    { apply bool_decide_eq_true. right. set_solver. }
    rewrite E'. now cbn.
Qed.

(** ** Deleting a volume *)

(** C4. [delete_volume] succeeds when a disk with the volume's name as its
    description exists and no file lies at the path: the disk object is
    deleted and the files are as before.  When no disk has that description
    it raises [IndexError], from [[0]] on the empty result, and nothing is
    deleted. *)
Theorem delete_volume_file_absent_or_disk_absent (vol_name vhd_path : string) (w : world) :
  ((∃ d, d ∈ disks w ∧ WT_Disk.Description d = vol_name) →
   files w !! vhd_path = None →
   ∃ d w',
     WindowsCommon.delete_volume vol_name vhd_path w = (inr tt, w')
     ∧ d ∈ disks w ∧ WT_Disk.Description d = vol_name
     ∧ disks w' = filter (λ x, WT_Disk.WTD x ≠ WT_Disk.WTD d) (disks w)
     ∧ files w' = files w)
  ∧
  ((∀ d, d ∈ disks w → WT_Disk.Description d ≠ vol_name) →
   ∃ w',
     WindowsCommon.delete_volume vol_name vhd_path w = (inl IndexError, w')
     ∧ disks w' = disks w
     ∧ files w' = files w).
Proof.
  split.
  - intros Hd Hf.
    apply (filter_some (λ d, WT_Disk.Description d = vol_name)) in Hd
      as (d & rest & Hq & Hdesc & Hin).
    exists d. eexists.
    unfold WindowsCommon.delete_volume, WT_Disk_by_Description, WT_Disk_Delete_,
      CIM_DataFile_query, CIM_DataFile_Delete.
    py_run. rewrite Hq. py_run. rewrite Hf. py_run.
    repeat split; assumption.
  - intros Hnone.
    apply (filter_none (λ d, WT_Disk.Description d = vol_name)) in Hnone.
    eexists.
    unfold WindowsCommon.delete_volume, WT_Disk_by_Description.
    py_run. rewrite Hnone. py_run.
    repeat split.
Qed.

(** [local_path] returns the path and leaves disks and files alone. *)
Lemma local_path_run (v : Volume) (w : world) :
  ∃ w0,
    WindowsDriver.local_path CONF v w
    = (inr (os_path_join (windows_iscsi_lun_path CONF) (vol_name v +:+ ".vhd")), w0)
    ∧ disks w0 = disks w
    ∧ files w0 = files w.
Proof.
  unfold WindowsDriver.local_path, os_path_exists, os_makedirs. py_run.
  destruct (bool_decide _); py_run; eexists; repeat split.
Qed.

(** The same for the driver's entry point, which derives the path of the
    file from the volume's name. *)
Lemma driver_delete_volume (volume : Volume) (w : world) :
  let vhd_path :=
    os_path_join (windows_iscsi_lun_path CONF) (vol_name volume +:+ ".vhd") in
  ((∃ d, d ∈ disks w ∧ WT_Disk.Description d = vol_name volume) →
   files w !! vhd_path = None →
   fst (WindowsDriver.delete_volume CONF volume w) = inr tt)
  ∧ ((∀ d, d ∈ disks w → WT_Disk.Description d ≠ vol_name volume) →
     fst (WindowsDriver.delete_volume CONF volume w) = inl IndexError).
Proof.
  intros vhd_path.
  destruct (local_path_run volume w) as (w0 & Hrun & Hdisks & Hfiles).
  fold vhd_path in Hrun.
  unfold WindowsDriver.delete_volume. rewrite (bind_ok _ _ _ _ _ Hrun).
  split.
  - intros Hd Hf.
    apply (filter_some (λ d, WT_Disk.Description d = vol_name volume)) in Hd
      as (d & rest & Hq & _ & _).
    unfold WindowsCommon.delete_volume, WT_Disk_by_Description, WT_Disk_Delete_,
      CIM_DataFile_query, CIM_DataFile_Delete.
    py_run. rewrite Hdisks, Hq. py_run. rewrite Hfiles, Hf. now py_run.
  - intros Hnone.
    apply (filter_none (λ d, WT_Disk.Description d = vol_name volume)) in Hnone.
    unfold WindowsCommon.delete_volume, WT_Disk_by_Description.
    py_run. rewrite Hdisks, Hnone. now py_run.
Qed.

(** ** Creating a target *)

(** C3. When [NewHost] fails, whatever the exception, the failure is
    swallowed in one case only: [ensure] is set and the exception is one
    of [wmi]'s whose text contains ['The file exists']; then
    [create_iscsi_target] returns, leaving a line in the log.  In every
    other case it raises: without [ensure], or with a text that does not
    contain ['The file exists'], the exception of [wmi] is raised again as
    it came, and an exception that carries no such text at all makes the
    handler raise [AttributeError].  No target is made in any case. *)
Theorem create_iscsi_target_ensure (target_name : string) (e : exn) (w : world) :
  NewHost_fault target_name (hosts w) = Some e →
  let w1 := record (WMI "WT_Host" "NewHost" [("HostName", PyStr target_name)]) w in
  (∀ info,
     e = x_wmi info →
     contains "The file exists" info = true →
     WindowsCommon.create_iscsi_target target_name true w
     = (inr tt,
        record (Log "info"
                  ("Ignored target creation error " +:+ dquote +:+ "%s" +:+ dquote
                   +:+ " while ensuring export")
                  [PyExn (x_wmi info)]) w1))
  ∧ (∀ info,
       e = x_wmi info →
       WindowsCommon.create_iscsi_target target_name false w = (inl (x_wmi info), w1))
  ∧ (∀ info,
       e = x_wmi info →
       contains "The file exists" info = false →
       ∀ ensure,
         WindowsCommon.create_iscsi_target target_name ensure w = (inl (x_wmi info), w1))
  ∧ ((∀ info, e ≠ x_wmi info) →
     ∀ ensure,
       WindowsCommon.create_iscsi_target target_name ensure w = (inl AttributeError, w1))
  ∧ (∀ ensure,
       fst (WindowsCommon.create_iscsi_target target_name ensure w) = inr tt
       ↔ ensure = true
         ∧ ∃ info, e = x_wmi info ∧ contains "The file exists" info = true)
  ∧ (∀ ensure,
       hosts (snd (WindowsCommon.create_iscsi_target target_name ensure w)) = hosts w).
Proof.
  intros Hfault w1. subst w1.
  unfold WindowsCommon.create_iscsi_target, WT_Host_NewHost,
    WindowsCommon.com_error_excepinfo2, contains.
  py_run. rewrite Hfault. py_run.
  split; [|split; [|split; [|split; [|split]]]].
  - intros info -> Hc. py_run. apply negb_true_iff in Hc. now rewrite Hc.
  - intros info ->. reflexivity.
  - intros info -> Hc ensure. py_run. apply negb_false_iff in Hc. rewrite Hc.
    now rewrite orb_true_r.
  - intros Hne ensure. destruct e; try reflexivity. now contradiction (Hne excepinfo2).
  - intros ensure. split.
    + destruct e; py_run; try discriminate.
      destruct ensure; [|discriminate]. cbn.
      destruct (find excepinfo2 "The file exists" =? -1)%Z eqn:Hf; [discriminate|].
      intros _. split; [reflexivity|]. exists excepinfo2. now rewrite Hf.
    + intros (-> & info & -> & Hc). py_run.
      apply negb_true_iff in Hc. now rewrite Hc.
  - intros ensure. destruct e; py_run; try reflexivity.
    destruct (negb ensure || _); reflexivity.
Qed.

(** When the provider accepts, the target is there afterwards, with no disk
    attached, whatever [ensure] is. *)
Lemma create_iscsi_target_new (target_name : string) (ensure : bool) (w : world) :
  NewHost_fault target_name (hosts w) = None →
  WindowsCommon.create_iscsi_target target_name ensure w
  = (inr tt,
     set_hosts (λ l, l ++ [WT_Host.Build_t target_name (NewHost_iqn target_name) []])
       (record (WMI "WT_Host" "NewHost" [("HostName", PyStr target_name)]) w)).
Proof.
  intros Hfault.
  unfold WindowsCommon.create_iscsi_target, WT_Host_NewHost.
  py_run. rewrite Hfault. now py_run.
Qed.

(** An exception that is not one of [wmi]'s has no [com_error]: the handler
    itself raises. *)
Lemma create_iscsi_target_foreign_exception (target_name : string) (ensure : bool)
    (e : exn) (w : world) :
  NewHost_fault target_name (hosts w) = Some e →
  (∀ info, e ≠ x_wmi info) →
  fst (WindowsCommon.create_iscsi_target target_name ensure w) = inl AttributeError.
Proof.
  intros Hfault Hne.
  unfold WindowsCommon.create_iscsi_target, WT_Host_NewHost,
    WindowsCommon.com_error_excepinfo2.
  py_run. rewrite Hfault. py_run.
  destruct e; try reflexivity. now contradiction (Hne excepinfo2).
Qed.

(** [create_iscsi_target] leaves the disks alone. *)
Lemma create_iscsi_target_disks (target_name : string) (ensure : bool) (w : world) :
  disks (snd (WindowsCommon.create_iscsi_target target_name ensure w)) = disks w.
Proof.
  unfold WindowsCommon.create_iscsi_target, WT_Host_NewHost,
    WindowsCommon.com_error_excepinfo2.
  py_run. destruct (NewHost_fault _ _) as [e|]; py_run; [|reflexivity].
  destruct e; py_run; try reflexivity.
  destruct (negb ensure || _); reflexivity.
Qed.

(** ** Exporting *)

(** C10. When no disk has the volume's name as its description,
    [add_disk_to_target] logs that the disk was not found and stops: the
    export ends as the creation of the target ended.  So when the provider
    accepts [NewHost], [create_export] returns
    [{provider_location: prefix + name}] and [ensure_export] returns too,
    and the targets are those from before and one more, of the name
    [prefix + name], with no disk attached; when the provider says the
    target exists already, [ensure_export] returns and the targets are as
    they were.  Nothing in the results tells that no disk was attached. *)
Theorem export_without_disk (volume : Volume) (w : world) :
  (∀ d, d ∈ disks w → WT_Disk.Description d ≠ vol_name volume) →
  let target_name := iscsi_target_prefix CONF +:+ vol_name volume in
  let skipped w1 :=
    record (Log "debug" "Disk not found: %s" [PyStr (vol_name volume)])
      (record (WMI "WT_Disk" "query" [("Description", PyStr (vol_name volume))]) w1) in
  (∀ ensure,
     WindowsDriver._do_export CONF volume ensure w
     = match WindowsCommon.create_iscsi_target target_name ensure w with
       | (inr _, w1) => (inr target_name, skipped w1)
       | (inl e, w1) => (inl e, w1)
       end)
  ∧ (∀ w1,
       WindowsCommon.create_iscsi_target target_name false w = (inr tt, w1) →
       WindowsDriver.create_export CONF volume w
       = (inr {[ "provider_location" := PyStr target_name ]}, skipped w1)
       ∧ hosts (skipped w1) = hosts w1)
  ∧ (∀ w1,
       WindowsCommon.create_iscsi_target target_name true w = (inr tt, w1) →
       WindowsDriver.ensure_export CONF volume w = (inr tt, skipped w1)
       ∧ hosts (skipped w1) = hosts w1)
  ∧ (NewHost_fault target_name (hosts w) = None →
     ∃ w2 w3,
       WindowsDriver.create_export CONF volume w
       = (inr {[ "provider_location" := PyStr target_name ]}, w2)
       ∧ hosts w2 = hosts w ++ [WT_Host.Build_t target_name (NewHost_iqn target_name) []]
       ∧ events w2
         = events w
           ++ [WMI "WT_Host" "NewHost" [("HostName", PyStr target_name)];
               WMI "WT_Disk" "query" [("Description", PyStr (vol_name volume))];
               Log "debug" "Disk not found: %s" [PyStr (vol_name volume)]]
       ∧ WindowsDriver.ensure_export CONF volume w = (inr tt, w3)
       ∧ hosts w3 = hosts w ++ [WT_Host.Build_t target_name (NewHost_iqn target_name) []]
       ∧ events w3 = events w2)
  ∧ (∀ info,
       NewHost_fault target_name (hosts w) = Some (x_wmi info) →
       contains "The file exists" info = true →
       ∃ w3,
         WindowsDriver.ensure_export CONF volume w = (inr tt, w3)
         ∧ hosts w3 = hosts w).
Proof.
  intros Hnone target_name skipped.
  assert (Hq : ∀ ensure,
            WindowsDriver._do_export CONF volume ensure w
            = match WindowsCommon.create_iscsi_target target_name ensure w with
              | (inr _, w1) => (inr target_name, skipped w1)
              | (inl e, w1) => (inl e, w1)
              end).
  { intros ensure.
    pose proof (create_iscsi_target_disks target_name ensure w) as Hdisks.
    unfold WindowsDriver._do_export. fold target_name. unfold bind at 1 2.
    destruct (WindowsCommon.create_iscsi_target target_name ensure w) as [[e|[]] w1];
      [reflexivity|].
    cbn in Hdisks.
    assert (Hd : filter (λ d, WT_Disk.Description d = vol_name volume) (disks w1) = []).
    { apply filter_none. now rewrite Hdisks. }
    unfold WindowsCommon.add_disk_to_target, WT_Disk_by_Description.
    py_run. now rewrite Hd. }
  split; [exact Hq|].
  split; [|split; [|split]]; try (intros w1 Hc; (split; [|reflexivity])).
  - unfold WindowsDriver.create_export, bind. now rewrite Hq, Hc.
  - unfold WindowsDriver.ensure_export, bind. now rewrite Hq, Hc.
  - intros Hfault.
    pose proof (create_iscsi_target_new target_name false w Hfault) as Hf.
    pose proof (create_iscsi_target_new target_name true w Hfault) as Ht.
    do 2 eexists.
    unfold WindowsDriver.create_export, WindowsDriver.ensure_export, bind.
    rewrite !Hq, Hf, Ht. subst skipped. cbn.
    split; [reflexivity|]. split; [reflexivity|].
    split; [cbn; now rewrite <- !app_assoc|].
    split; [reflexivity|]. split; reflexivity.
  - intros info Hfault Hinfo.
    unfold WindowsDriver.ensure_export, bind. rewrite Hq.
    unfold WindowsCommon.create_iscsi_target, WT_Host_NewHost,
      WindowsCommon.com_error_excepinfo2.
    apply negb_true_iff in Hinfo. unfold find in Hinfo.
    py_run. rewrite Hfault. py_run. unfold find. rewrite Hinfo. py_run.
    eexists. split; reflexivity.
Qed.

(** ** Extending a volume *)

(** C7. [extend_volume] calls [extend] with the volume's name and
    [(new_size - old_size) * 1024]; when the disk is found, what it asks of
    the provider is the query and one [Extend] of exactly that many MiB.
    Whatever exception the
    call raises, [extend_volume] logs and raises
    [VolumeBackendAPIException] with a message that ends in the volume's
    name. *)
Theorem extend_volume_delta (volume : Volume) (new_size : Z) (w : world) :
  let additional_size := (new_size - vol_size volume) * 1024 in
  let msg := "Failed to Extend Volume " +:+ vol_name volume in
  (∀ w1,
     WindowsCommon.extend (vol_name volume) additional_size w = (inr tt, w1) →
     WindowsDriver.extend_volume volume new_size w
     = (inr tt,
        record (Log "debug" "Extend volume from %(old_size) to %(new_size)"
                  [PyInt (vol_size volume); PyInt new_size]) w1))
  ∧ (∀ e w1,
       WindowsCommon.extend (vol_name volume) additional_size w = (inl e, w1) →
       WindowsDriver.extend_volume volume new_size w
       = (inl (VolumeBackendAPIException msg), record (Log "error" msg []) w1))
  ∧ (∀ d,
       d ∈ disks w → WT_Disk.Description d = vol_name volume →
       ∃ d0 last,
         d0 ∈ disks w ∧ WT_Disk.Description d0 = vol_name volume
         ∧ events (snd (WindowsDriver.extend_volume volume new_size w))
           = events w
             ++ [WMI "WT_Disk" "query" [("Description", PyStr (vol_name volume))];
                 WMI "WT_Disk" "Extend"
                   [("WTD", PyInt (WT_Disk.WTD d0));
                    ("AdditionalSize", PyInt additional_size)];
                 last]).
Proof.
  intros additional_size msg. subst additional_size msg. repeat split.
  - intros w1 He. unfold WindowsDriver.extend_volume, bind, try_except.
    cbv zeta. now rewrite He.
  - intros e w1 He. unfold WindowsDriver.extend_volume, bind, try_except.
    cbv zeta. now rewrite He.
  - intros d Hin Hdesc.
    destruct (filter_some (λ d, WT_Disk.Description d = vol_name volume) (disks w))
      as (d0 & rest & Hq & Hdesc0 & Hin0); [now exists d|].
    exists d0.
    unfold WindowsDriver.extend_volume, WindowsCommon.extend,
      WT_Disk_by_Description, WT_Disk_Extend.
    py_run. rewrite Hq. py_run.
    destruct (Extend_fault d0 _); py_run; eexists;
      (repeat split; try assumption);
      rewrite <- !app_assoc; reflexivity.
Qed.

(** ** Snapshots *)

Lemma fresh_id_gt (ids : list Z) (x : Z) : x ∈ ids → x < fresh_id ids.
Proof.
  unfold fresh_id. induction ids as [|a ids IH]; intros Hx.
  - now apply elem_of_nil in Hx.
  - apply elem_of_cons in Hx as [->|Hx]; cbn; [lia|].
    specialize (IH Hx). lia.
Qed.

Lemma fresh_snapshot_id (l : list WT_Snapshot.t) (s : WT_Snapshot.t) :
  s ∈ l → WT_Snapshot.Id s ≠ fresh_id (WT_Snapshot.Id <$> l).
Proof.
  intros Hs. apply Z.lt_neq, fresh_id_gt.
  apply list_elem_of_fmap. now exists s.
Qed.

Lemma map_unchanged {A} (f : A → A) (l : list A) :
  (∀ x, x ∈ l → f x = x) → map f l = l.
Proof.
  induction l as [|a l IH]; intros Hf; [reflexivity|]. cbn.
  rewrite Hf by left. f_equal. apply IH. intros x Hx. apply Hf. now right.
Qed.

(** What [create_snapshot] does when the disk is found: the four requests
    in order, and one more snapshot, carrying the new identifier, the
    snapshot's name as description and the handle of the disk. *)
Lemma create_snapshot_run (vol_name snapshot_name : string) (w : world)
    (d : WT_Disk.t) (rest : list WT_Disk.t) :
  filter (λ d, WT_Disk.Description d = vol_name) (disks w) = d :: rest →
  let id := fresh_id (WT_Snapshot.Id <$> snapshots w) in
  WindowsCommon.create_snapshot vol_name snapshot_name w
  = (inr tt,
     World (portals w) (hosts w) (disks w)
       (snapshots w ++ [WT_Snapshot.Build_t id snapshot_name (WT_Disk.WTD d)])
       (idmethods w) (files w) (dirs w) (images w)
       (events w
        ++ [WMI "WT_Disk" "query" [("Description", PyStr vol_name)];
            WMI "WT_Snapshot" "Create" [("WTD", PyInt (WT_Disk.WTD d))];
            WMI "WT_Snapshot" "query" [("Id", PyInt id)];
            WMI "WT_Snapshot" "put"
              [("Id", PyInt id); ("Description", PyStr snapshot_name)]])).
Proof.
  intros Hq id.
  assert (Hfresh : ∀ s, s ∈ snapshots w → WT_Snapshot.Id s ≠ id)
    by (intros s; apply fresh_snapshot_id).
  unfold WindowsCommon.create_snapshot, WT_Disk_by_Description, WT_Snapshot_Create,
    WT_Snapshot_by_Id, WT_Snapshot_put.
  py_run. rewrite Hq. py_run. fold id.
  rewrite filter_app, (filter_none _ _ Hfresh).
  rewrite filter_cons_True by reflexivity. py_run.
  rewrite map_app. cbn. rewrite decide_True by reflexivity.
  rewrite map_unchanged.
  - now rewrite <- !app_assoc.
  - intros x Hx. now rewrite decide_False by (apply Hfresh, Hx).
Qed.

(** C8. When a disk has the volume's name as its description,
    [create_snapshot] looks it up by that description, asks for a snapshot
    of its handle, reads the new snapshot back by the identifier it was
    given and writes the snapshot's name into its description, in this
    order.  [delete_snapshot] with that name then finds a snapshot by the
    description and deletes it; when no snapshot had that description
    before, it is the one just made, and the snapshots are as they were. *)
Theorem create_snapshot_then_delete (vol_name snapshot_name : string) (w : world) :
  (∃ d, d ∈ disks w ∧ WT_Disk.Description d = vol_name) →
  ∃ d w1,
    d ∈ disks w ∧ WT_Disk.Description d = vol_name
    ∧ WindowsCommon.create_snapshot vol_name snapshot_name w = (inr tt, w1)
    ∧ (let id := fresh_id (WT_Snapshot.Id <$> snapshots w) in
       events w1
       = events w
         ++ [WMI "WT_Disk" "query" [("Description", PyStr vol_name)];
             WMI "WT_Snapshot" "Create" [("WTD", PyInt (WT_Disk.WTD d))];
             WMI "WT_Snapshot" "query" [("Id", PyInt id)];
             WMI "WT_Snapshot" "put"
               [("Id", PyInt id); ("Description", PyStr snapshot_name)]]
       ∧ snapshots w1
         = snapshots w ++ [WT_Snapshot.Build_t id snapshot_name (WT_Disk.WTD d)])
    ∧ ∃ s w2,
        WindowsCommon.delete_snapshot snapshot_name w1 = (inr tt, w2)
        ∧ s ∈ snapshots w1 ∧ WT_Snapshot.Description s = snapshot_name
        ∧ snapshots w2 = filter (λ x, WT_Snapshot.Id x ≠ WT_Snapshot.Id s) (snapshots w1)
        ∧ ((∀ x, x ∈ snapshots w → WT_Snapshot.Description x ≠ snapshot_name) →
           snapshots w2 = snapshots w).
Proof.
  intros Hd.
  apply (filter_some (λ d, WT_Disk.Description d = vol_name)) in Hd
    as (d & rest & Hq & Hdesc & Hin).
  pose proof (create_snapshot_run vol_name snapshot_name w d rest Hq) as Hrun.
  cbv zeta in Hrun.
  set (id := fresh_id (WT_Snapshot.Id <$> snapshots w)) in *.
  set (new := WT_Snapshot.Build_t id snapshot_name (WT_Disk.WTD d)) in *.
  exists d. eexists. split; [assumption|]. split; [assumption|].
  split; [exact Hrun|]. split; [now split|].
  destruct (filter_some (λ s, WT_Snapshot.Description s = snapshot_name)
              (snapshots w ++ [new]))
    as (s & more & Hqs & Hsdesc & Hsin).
  { exists new. split; [|reflexivity]. apply elem_of_app. right. left. }
  exists s. eexists.
  unfold WindowsCommon.delete_snapshot, WT_Snapshot_by_Description, WT_Snapshot_Delete_.
  py_run. rewrite Hqs. py_run.
  split; [reflexivity|]. split; [assumption|]. split; [assumption|].
  split; [reflexivity|].
  intros Hnone.
  rewrite filter_app, (filter_none _ _ Hnone) in Hqs.
  rewrite filter_cons_True in Hqs by reflexivity.
  cbn in Hqs. injection Hqs as <- _.
  rewrite filter_app. rewrite filter_cons_False by (cbn; tauto).
  cbn. rewrite app_nil_r. apply filter_all.
  intros x Hx. now apply fresh_snapshot_id.
Qed.

(** ** Attaching and detaching *)

(** [get_host_information] only reads: the identification methods stay. *)
Lemma get_host_information_idmethods (volume : Volume) (target_name : string) (w : world) :
  idmethods (snd (WindowsCommon.get_host_information volume target_name w)) = idmethods w.
Proof.
  unfold WindowsCommon.get_host_information,
    WindowsCommon.get_host_information_properties, WT_Portal_all, WT_Host_query.
  py_run. destruct (portals w); py_run; [reflexivity|].
  destruct (filter _ (hosts w)); py_run; [reflexivity|].
  destruct (vol_provider_auth volume) as [[|a auth]|]; py_run; try reflexivity.
  match goal with
  | |- context [split3 ?s ?w0] =>
      pose proof (split3_world s w0) as Hs;
      destruct (split3 s w0) as [[e|[[x y] z]] w1]
  end; cbn in Hs |- *; now subst w1.
Qed.

(** The identification methods after [initialize_connection]: the entry it
    [put], if it was not there, has the connector's initiator as [HostName]
    and the volume's target as [Value]. *)
Lemma initialize_connection_idmethods (volume : Volume) (connector : Connector) (w : world) :
  let m := WT_IDMethod.Build_t (initiator connector) 4 (vol_provider_location volume) in
  idmethods (snd (WindowsDriver.initialize_connection volume connector w))
  = if decide (m ∈ idmethods w) then idmethods w else idmethods w ++ [m].
Proof.
  intros m. unfold WindowsDriver.initialize_connection.
  unfold WindowsCommon.associate_initiator_with_iscsi_target, WT_IDMethod_put.
  fold m.
  unfold bind at 1 2. unfold emit, modify at 1 2. unfold bind at 1.
  match goal with
  | |- context [WindowsCommon.get_host_information ?v ?t ?w0] =>
      pose proof (get_host_information_idmethods v t w0) as Hg;
      destruct (WindowsCommon.get_host_information v t w0) as [[e|r] w1]
  end; cbn in Hg |- *; exact Hg.
Qed.

(** An unbind that finds no entry for (target, initiator) raises
    [IndexError], from [[0]] on the empty result, and deletes nothing. *)
Lemma terminate_connection_unbound (volume : Volume) (connector : Connector) (w : world) :
  WT_IDMethod.Build_t (vol_provider_location volume) 4 (initiator connector) ∉ idmethods w →
  ∃ w1,
    WindowsDriver.terminate_connection volume connector w = (inl IndexError, w1)
    ∧ idmethods w1 = idmethods w.
Proof.
  intros Hnot. eexists.
  unfold WindowsDriver.terminate_connection, WindowsCommon.delete_iscsi_target,
    WT_IDMethod_query.
  py_run. rewrite filter_none; [now py_run|].
  intros x Hx ->. contradiction.
Qed.

(** An unbind that finds the entry for (target, initiator) deletes it. *)
Lemma terminate_connection_bound (volume : Volume) (connector : Connector) (w : world) :
  let m := WT_IDMethod.Build_t (vol_provider_location volume) 4 (initiator connector) in
  m ∈ idmethods w →
  ∃ w1,
    WindowsDriver.terminate_connection volume connector w = (inr tt, w1)
    ∧ idmethods w1 = filter (λ x, x ≠ m) (idmethods w).
Proof.
  intros m Hin.
  destruct (filter_some (λ x, x = m) (idmethods w)) as (y & rest & Hq & -> & _);
    [now exists m|].
  eexists.
  unfold WindowsDriver.terminate_connection, WindowsCommon.delete_iscsi_target,
    WT_IDMethod_query, WT_IDMethod_Delete_.
  py_run. fold m. rewrite Hq. now py_run.
Qed.

(** C1. The bind of [initialize_connection] and the unbind of
    [terminate_connection] do not meet.  [initialize_connection] hands
    (target, initiator) to a function that takes (initiator, target): the
    entry it stores has the connector's initiator as [HostName] and the
    volume's target as [Value].  [terminate_connection] looks for the entry
    with the target as [HostName] and the initiator as [Value]; when the two
    names differ and no such entry was there before, it finds none after the
    bind either and raises [IndexError]. *)
Theorem initialize_then_terminate_swapped (volume : Volume) (connector : Connector)
    (w : world) :
  let target_name := vol_provider_location volume in
  let initiator_name := initiator connector in
  let w1 := snd (WindowsDriver.initialize_connection volume connector w) in
  initiator_name ≠ target_name →
  WT_IDMethod.Build_t target_name 4 initiator_name ∉ idmethods w →
  (WT_IDMethod.Build_t initiator_name 4 target_name ∈ idmethods w1)
  ∧ (WT_IDMethod.Build_t target_name 4 initiator_name ∉ idmethods w1)
  ∧ fst (WindowsDriver.terminate_connection volume connector w1) = inl IndexError.
Proof.
  intros target_name initiator_name w1 Hne Hnot.
  assert (Hw1 : idmethods w1
            = if decide (WT_IDMethod.Build_t initiator_name 4 target_name ∈ idmethods w)
              then idmethods w
              else idmethods w ++ [WT_IDMethod.Build_t initiator_name 4 target_name])
    by apply initialize_connection_idmethods.
  assert (Hnot1 : WT_IDMethod.Build_t target_name 4 initiator_name ∉ idmethods w1).
  { rewrite Hw1. destruct (decide _); [assumption|].
    rewrite elem_of_app, list_elem_of_singleton. intros [H|H]; [contradiction|].
    injection H as H _. now apply Hne. }
  split; [|split; [assumption|]].
  - rewrite Hw1. destruct (decide _); [assumption|].
    apply elem_of_app. right. left.
  - destruct (terminate_connection_unbound volume connector w1 Hnot1) as (w2 & -> & _).
    reflexivity.
Qed.

(** ** Connection information *)

(** The dictionary [get_host_information] builds: the five fixed entries
    from the portal, the target and the volume, and the three
    authentication entries when the volume carries three fields. *)
Lemma get_host_information_builds_properties (volume : Volume) (target_name : string)
    (w : world) (p : WT_Portal.t) (ps : list WT_Portal.t)
    (h : WT_Host.t) (hs : list WT_Host.t) :
  portals w = p :: ps →
  filter (λ h, WT_Host.HostName h = target_name) (hosts w) = h :: hs →
  let fixed : gmap string pyval :=
    <["volume_id" := PyStr (vol_id volume)]>
      (<["target_lun" := PyInt 0]>
         (<["target_iqn" := PyStr (WT_Host.TargetIQN h)]>
            (<["target_portal" :=
                 PyStr (WT_Portal.Address p +:+ ":" +:+ pretty (WT_Portal.Port p))]>
               (<["target_discovered" := PyBool false]> ∅)))) in
  (vol_provider_auth volume = None ∨ vol_provider_auth volume = Some EmptyString →
   fst (WindowsCommon.get_host_information_properties volume target_name w) = inr fixed)
  ∧ (∀ auth a b c,
       vol_provider_auth volume = Some auth → auth ≠ EmptyString →
       String.words auth = [a; b; c] →
       fst (WindowsCommon.get_host_information_properties volume target_name w)
       = inr (<["auth_password" := PyStr c]>
                (<["auth_username" := PyStr b]>
                   (<["auth_method" := PyStr a]> fixed)))).
Proof.
  intros Hp Hh fixed. subst fixed.
  unfold WindowsCommon.get_host_information_properties, WT_Portal_all, WT_Host_query.
  py_run. rewrite Hp. py_run. rewrite Hh. py_run.
  split.
  - now intros [-> | ->].
  - intros auth a b c -> Hne Hwords.
    destruct auth as [|x auth]; [contradiction|].
    py_run. unfold split3. now rewrite Hwords.
Qed.

(** C2. Whenever [initialize_connection] returns, its result is
    [{driver_volume_type: "iscsi", data: None}]: [get_host_information]
    builds the dictionary and ends without returning it. *)
Theorem initialize_connection_data_None (volume : Volume) (connector : Connector)
    (w w1 : world) (r : ConnectionInfo) :
  WindowsDriver.initialize_connection volume connector w = (inr r, w1) →
  r = {| driver_volume_type := "iscsi"; data := None |}.
Proof.
  unfold WindowsDriver.initialize_connection, WindowsCommon.get_host_information.
  unfold bind.
  destruct (WindowsCommon.associate_initiator_with_iscsi_target _ _ w) as [[e|[]] w0];
    [discriminate|].
  destruct (WindowsCommon.get_host_information_properties _ _ w0) as [[e|props] w2];
    [discriminate|].
  unfold ret. now intros [= <- _].
Qed.

(** ** Importing an image *)

(** An image with a backing file is refused: [fetch_to_vhd] raises
    [ImageUnacceptable], and the files are what they were, the temporary
    file gone and nothing written at the destination. *)
Lemma fetch_to_vhd_backing_file (image_id dest bytes b : string) (w : world) :
  let tmp := mkstemp_name (image_conversion_dir CONF) (files w) in
  images w !! image_id = Some bytes →
  backing_file (qemu_info_of bytes) = Some b →
  files w !! tmp = None →
  ∃ reason w1,
    WindowsCommon.fetch_to_vhd CONF image_id dest w
    = (inl (ImageUnacceptable image_id reason), w1)
    ∧ files w1 = files w.
Proof.
  intros tmp Himg Hb Hfresh.
  unfold WindowsCommon.fetch_to_vhd, WindowsCommon.ensure_conversion_dir,
    temporary_file, mkstemp, os_path_exists, os_makedirs, image_utils_fetch,
    WindowsCommon.qemu_img_info, delete_if_exists.
  py_run. fold tmp.
  destruct (negb _ && negb _); py_run; fold tmp; rewrite Himg; py_run;
    rewrite lookup_insert_eq; py_run; rewrite Hb;
    destruct (file_format (qemu_info_of bytes)); py_run;
    do 2 eexists; (split; [reflexivity|]); cbn;
    rewrite insert_insert_eq; now apply delete_insert_id.
Qed.

(** Every run of [fetch_to_vhd] that returns went through the second probe:
    the file at the destination reads as [vpc]. *)
Lemma fetch_to_vhd_reprobe (image_id dest : string) (w : world) :
  let tmp := mkstemp_name (image_conversion_dir CONF) (files w) in
  match WindowsCommon.fetch_to_vhd CONF image_id dest w with
  | (inr _, w1) =>
      tmp ≠ dest →
      ∃ bytes,
        files w1 !! dest = Some bytes ∧ file_format (qemu_info_of bytes) = Some "vpc"
  | (inl _, _) => True
  end.
Proof.
  intros tmp.
  unfold WindowsCommon.fetch_to_vhd, WindowsCommon.ensure_conversion_dir,
    temporary_file, mkstemp, os_path_exists, os_makedirs, image_utils_fetch,
    WindowsCommon.qemu_img_info, delete_if_exists, WindowsCommon.convert_image,
    WindowsCommon.copy_vhd_disk, CIM_DataFile_query, CIM_DataFile_Copy.
  py_run. fold tmp.
  destruct (negb _ && negb _); py_run; fold tmp.
  all: destruct (images w !! image_id) as [bytes|]; py_run; [|exact I].
  all: rewrite lookup_insert_eq; py_run.
  all: destruct (file_format (qemu_info_of bytes)) as [fmt|]; py_run; [|exact I].
  all: destruct (backing_file (qemu_info_of bytes)); py_run; [exact I|].
  all: destruct (negb (contains "vpc" fmt)); py_run.
  all: rewrite lookup_insert_eq; py_run.
  all: try (destruct (qemu_convert_to "vpc" bytes) as [out|]; py_run).
  all: repeat match goal with
       | |- context [match ?fs !! ?d with _ => _ end] =>
           let Hd := fresh "Hd" in
           destruct (fs !! d) as [?|] eqn:Hd; py_run;
           try rewrite lookup_insert_eq; try rewrite Hd; py_run
       end.
  all: try exact I.
  all: try (match goal with
       | |- context [bool_decide ?P] => destruct (bool_decide P) eqn:Hb
       end; py_run; try exact I).
  all: try apply bool_decide_eq_false in Hb.
  all: try (exfalso; apply Hb; discriminate).
  all: intros Hne; eexists; (split; [rewrite lookup_delete_ne by assumption; eassumption|]).
  all: now apply dec_stable in Hb.
Qed.

(** C5. When the image fetched declares a backing file, [fetch_to_vhd]
    raises [ImageUnacceptable] and leaves the files as they were: no file
    was made at the destination.  And whenever [fetch_to_vhd] returns, the
    file at the destination, which is not the temporary file, reads as
    [vpc] to [qemu-img info]. *)
Theorem fetch_to_vhd_rejects_backing_file_and_checks_format
    (image_id dest : string) (w : world) :
  let tmp := mkstemp_name (image_conversion_dir CONF) (files w) in
  (∀ bytes b,
     images w !! image_id = Some bytes →
     backing_file (qemu_info_of bytes) = Some b →
     files w !! tmp = None →
     ∃ reason w1,
       WindowsCommon.fetch_to_vhd CONF image_id dest w
       = (inl (ImageUnacceptable image_id reason), w1)
       ∧ files w1 = files w)
  ∧ (∀ w1,
       WindowsCommon.fetch_to_vhd CONF image_id dest w = (inr tt, w1) →
       tmp ≠ dest →
       ∃ bytes info w2,
         files w1 !! dest = Some bytes
         ∧ WindowsCommon.qemu_img_info CONF dest w1 = (inr info, w2)
         ∧ file_format info = Some "vpc").
Proof.
  intros tmp. split.
  - intros bytes b. apply fetch_to_vhd_backing_file.
  - intros w1 H Hne.
    pose proof (fetch_to_vhd_reprobe image_id dest w) as Ha. cbv zeta in Ha.
    rewrite H in Ha. destruct (Ha Hne) as (bytes & Hd & Hf).
    exists bytes, (qemu_info_of bytes). eexists.
    split; [assumption|]. split; [|assumption].
    unfold WindowsCommon.qemu_img_info. py_run. now rewrite Hd.
Qed.

(** ** Uploading a volume *)

(** When the image is to be a [vhd], the volume's file is streamed as it is
    and no file is made or removed. *)
Lemma upload_volume_vhd (image_meta : ImageMeta) (volume_path : string) (w : world) :
  disk_format image_meta = "vhd" →
  files (snd (WindowsCommon.upload_volume CONF image_meta volume_path w)) = files w.
Proof.
  intros Hfmt.
  unfold WindowsCommon.upload_volume, file_open, image_service_update.
  rewrite bool_decide_eq_true_2 by assumption.
  py_run. destruct (files w !! volume_path) as [bytes|]; py_run; [|reflexivity].
  destruct (update_fault _ _); reflexivity.
Qed.

(** C9. [upload_volume] does not remove every file it makes in the
    conversion directory.  When the image is not to be a [vhd], the volume's
    file is copied to [<image id>.vhd] in that directory before the
    conversion; where no such file was there before, the copy is still
    there when [upload_volume] ends, on every path, with the volume's bytes
    in it.  Only the file made by [mkstemp] is gone on every path. *)
Theorem upload_volume_leaves_scratch_copy (image_meta : ImageMeta)
    (volume_path bytes : string) (w : world) :
  let temp_vhd_path :=
    os_path_join (image_conversion_dir CONF) (img_id image_meta +:+ ".vhd") in
  let tmp :=
    mkstemp_name (image_conversion_dir CONF) (<[temp_vhd_path := bytes]> (files w)) in
  let w1 := snd (WindowsCommon.upload_volume CONF image_meta volume_path w) in
  disk_format image_meta ≠ "vhd" →
  files w !! volume_path = Some bytes →
  files w !! temp_vhd_path = None →
  tmp ≠ temp_vhd_path →
  files w1 !! temp_vhd_path = Some bytes ∧ files w1 !! tmp = None.
Proof.
  intros temp_vhd_path tmp w1 Hfmt Hsrc Hnone Hne. subst w1.
  unfold WindowsCommon.upload_volume, WindowsCommon.ensure_conversion_dir, mkstemp,
    os_path_exists, os_makedirs, WindowsCommon.qemu_img_info, delete_if_exists,
    WindowsCommon.convert_image, WindowsCommon.copy_vhd_disk, CIM_DataFile_query,
    CIM_DataFile_Copy, file_open, image_service_update, os_unlink.
  rewrite bool_decide_eq_false_2 by assumption.
  py_run. fold temp_vhd_path.
  destruct (negb _ && negb _); py_run.
  all: rewrite Hsrc; py_run; rewrite Hnone; py_run; fold tmp.
  all: rewrite lookup_insert_ne by assumption; rewrite lookup_insert_eq; py_run.
  all: destruct (qemu_convert_to (disk_format image_meta) bytes) as [out|]; py_run.
  all: repeat (first
         [ rewrite lookup_insert_eq
         | match goal with
           | |- context [bool_decide ?P] => destruct (bool_decide P)
           | |- context [update_fault ?a ?b] => destruct (update_fault a b)
           end ]; py_run).
  all: split.
  all: rewrite ?lookup_delete_eq, ?lookup_delete_ne, ?lookup_insert_ne by assumption.
  all: try reflexivity.
  all: apply lookup_insert_eq.
Qed.

End Properties.

(** * The properties on the storage host *)

Lemma local_path_deterministic_witness :
  fst (WindowsDriver.local_path Host.conf Host.vol1 Host.bare)
    = inr "C:\iSCSIVirtualDisks\vol1.vhd"
  ∧ fst (WindowsDriver.local_path Host.conf Host.vol1 Host.exported)
    = fst (WindowsDriver.local_path Host.conf Host.vol1 Host.bare).
Proof.
  exact (local_path_deterministic Host.conf Host.vol1 Host.vol1
           Host.bare Host.exported eq_refl).
Defined.

Lemma delete_volume_witness :
  fst (WindowsCommon.delete_volume "vol1" "C:\iSCSIVirtualDisks\vol1.vhd" Host.orphaned)
    = inr tt
  ∧ fst (WindowsCommon.delete_volume "vol1" "C:\iSCSIVirtualDisks\vol1.vhd" Host.bare)
    = inl IndexError.
Proof.
  split.
  - destruct (proj1 (delete_volume_file_absent_or_disk_absent
                       "vol1" "C:\iSCSIVirtualDisks\vol1.vhd" Host.orphaned))
      as (d & w' & -> & _); [|reflexivity|reflexivity].
    exists Host.disk1. split; [left|reflexivity].
  - destruct (proj2 (delete_volume_file_absent_or_disk_absent
                       "vol1" "C:\iSCSIVirtualDisks\vol1.vhd" Host.bare))
      as (w' & -> & _); [|reflexivity].
    intros d Hd. inversion Hd.
Defined.

Lemma create_iscsi_target_ensure_witness :
  fst (WindowsCommon.create_iscsi_target "iqn.2010-10.org.openstack:vol1" true Host.exported)
    = inr tt
  ∧ fst (WindowsCommon.create_iscsi_target "iqn.2010-10.org.openstack:vol1" false
           Host.exported)
    = inl (x_wmi "The file exists.")
  ∧ fst (@WindowsCommon.create_iscsi_target Host.denied "iqn.2010-10.org.openstack:vol1"
           true Host.exported)
    = inl (x_wmi "Access is denied.")
  ∧ fst (@WindowsCommon.create_iscsi_target Host.broken "iqn.2010-10.org.openstack:vol1"
           true Host.exported)
    = inl AttributeError
  ∧ hosts (snd (WindowsCommon.create_iscsi_target "iqn.2010-10.org.openstack:vol1" true
                  Host.exported))
    = [Host.target1].
Proof.
  pose proof (create_iscsi_target_ensure "iqn.2010-10.org.openstack:vol1"
                (x_wmi "The file exists.") Host.exported eq_refl)
    as (H1 & H2 & _ & _ & _ & H5).
  pose proof (@create_iscsi_target_ensure Host.denied "iqn.2010-10.org.openstack:vol1"
                (x_wmi "Access is denied.") Host.exported eq_refl)
    as (_ & _ & H3 & _).
  pose proof (@create_iscsi_target_ensure Host.broken "iqn.2010-10.org.openstack:vol1"
                (IOError "wmi") Host.exported eq_refl)
    as (_ & _ & _ & H4 & _).
  rewrite (H5 true).
  rewrite (H1 _ eq_refl eq_refl), (H2 _ eq_refl), (H3 _ eq_refl eq_refl true).
  rewrite (H4 (λ info, ltac:(discriminate)) true).
  repeat split.
Defined.

Lemma export_without_disk_witness :
  (∃ w2,
     WindowsDriver.create_export Host.conf Host.vol1 Host.bare
     = (inr {[ "provider_location" := PyStr "iqn.2010-10.org.openstack:vol1" ]}, w2)
     ∧ hosts w2
       = [WT_Host.Build_t "iqn.2010-10.org.openstack:vol1"
            "iqn.1991-05.com.microsoft:iqn.2010-10.org.openstack:vol1" []])
  ∧ (∃ w3,
       WindowsDriver.ensure_export Host.conf Host.vol1 Host.bare = (inr tt, w3)
       ∧ hosts w3
         = [WT_Host.Build_t "iqn.2010-10.org.openstack:vol1"
              "iqn.1991-05.com.microsoft:iqn.2010-10.org.openstack:vol1" []])
  ∧ (∃ w3,
       WindowsDriver.ensure_export Host.conf Host.vol2 Host.exported2 = (inr tt, w3)
       ∧ hosts w3 = hosts Host.exported2)
  ∧ fst (WindowsDriver._do_export Host.conf Host.vol2 false Host.exported2)
    = inl (x_wmi "The file exists.").
Proof.
  assert (Hnone : ∀ d, d ∈ disks Host.bare →
                       WT_Disk.Description d ≠ vol_name Host.vol1)
    by (intros d Hd; inversion Hd).
  assert (Hnone2 : ∀ d, d ∈ disks Host.exported2 →
                        WT_Disk.Description d ≠ vol_name Host.vol2).
  { intros d Hd. apply list_elem_of_singleton in Hd as ->. discriminate. }
  destruct (export_without_disk Host.conf Host.vol1 Host.bare Hnone)
    as (_ & H1 & H2 & H3 & _).
  destruct (export_without_disk Host.conf Host.vol2 Host.exported2 Hnone2)
    as (H0 & _ & _ & _ & H4).
  destruct (H3 eq_refl) as (w2 & w3 & Hc & Hh2 & _ & He & Hh3 & _).
  destruct (H1 _ eq_refl) as [Hc' _]. destruct (H2 _ eq_refl) as [He' _].
  split; [exists w2; split; [exact Hc|exact Hh2]|].
  split; [exists w3; split; [exact He|exact Hh3]|].
  split; [exact (H4 "The file exists." eq_refl eq_refl)|].
  rewrite (H0 false). reflexivity.
Defined.

Lemma extend_volume_delta_witness :
  fst (WindowsDriver.extend_volume Host.vol1 2 Host.exported) = inr tt
  ∧ fst (WindowsDriver.extend_volume Host.vol1 1 Host.exported)
    = inl (VolumeBackendAPIException "Failed to Extend Volume vol1")
  ∧ ∃ last,
      events (snd (WindowsDriver.extend_volume Host.vol1 2 Host.exported))
      = [WMI "WT_Disk" "query" [("Description", PyStr "vol1")];
         WMI "WT_Disk" "Extend" [("WTD", PyInt 1); ("AdditionalSize", PyInt 1024)];
         last].
Proof.
  destruct (extend_volume_delta Host.vol1 2 Host.exported) as (H1 & _ & H3).
  destruct (extend_volume_delta Host.vol1 1 Host.exported) as (_ & H2 & _).
  rewrite (H1 _ eq_refl), (H2 _ _ eq_refl).
  split; [reflexivity|]. split; [reflexivity|].
  exists (Log "debug" "Extend volume from %(old_size) to %(new_size)" [PyInt 1; PyInt 2]).
  reflexivity.
Defined.

Lemma create_snapshot_then_delete_witness :
  ∃ w1 w2,
    WindowsCommon.create_snapshot "vol1" "snap1" Host.exported = (inr tt, w1)
    ∧ snapshots w1 = [WT_Snapshot.Build_t 1 "snap1" 1]
    ∧ WindowsCommon.delete_snapshot "snap1" w1 = (inr tt, w2)
    ∧ snapshots w2 = [].
Proof.
  destruct (create_snapshot_then_delete "vol1" "snap1" Host.exported)
    as (d & w1 & _ & _ & Hc & (_ & Hs) & s & w2 & Hdel & _ & _ & _ & Hback).
  - exists Host.disk1. split; [left|reflexivity].
  - exists w1, w2. split; [exact Hc|]. split; [|split; [exact Hdel|]].
    + assert (Hw1 : w1 = snd (WindowsCommon.create_snapshot "vol1" "snap1" Host.exported))
        by now rewrite Hc.
      rewrite Hw1. reflexivity.
    + apply Hback. intros x Hx. inversion Hx.
Defined.

Lemma initialize_then_terminate_swapped_witness :
  let w1 := snd (WindowsDriver.initialize_connection Host.vol1 Host.connector1
                   Host.exported) in
  idmethods w1
    = [WT_IDMethod.Build_t "iqn.1991-05.com.microsoft:compute1" 4
         "iqn.2010-10.org.openstack:vol1"]
  ∧ fst (WindowsDriver.terminate_connection Host.vol1 Host.connector1 w1)
    = inl IndexError.
Proof.
  split; [reflexivity|].
  apply (initialize_then_terminate_swapped Host.vol1 Host.connector1 Host.exported).
  - discriminate.
  - intros H. inversion H.
Defined.

Lemma initialize_connection_data_None_witness :
  fst (WindowsDriver.initialize_connection Host.vol1 Host.connector1 Host.exported)
  = inr {| driver_volume_type := "iscsi"; data := None |}.
Proof.
  destruct (WindowsDriver.initialize_connection Host.vol1 Host.connector1 Host.exported)
    as [[e|r] w1] eqn:E.
  - vm_compute in E. discriminate.
  - cbn. f_equal.
    exact (initialize_connection_data_None Host.vol1 Host.connector1 Host.exported w1 r E).
Defined.

Lemma fetch_to_vhd_witness :
  (∃ reason w1,
     WindowsCommon.fetch_to_vhd Host.conf "img-backed" "C:\iSCSIVirtualDisks\vol2.vhd"
       Host.with_images
     = (inl (ImageUnacceptable "img-backed" reason), w1)
     ∧ files w1 = files Host.with_images)
  ∧ (∃ bytes info w2,
       files (snd (WindowsCommon.fetch_to_vhd Host.conf "img-raw"
                     "C:\iSCSIVirtualDisks\vol2.vhd" Host.with_images))
         !! "C:\iSCSIVirtualDisks\vol2.vhd" = Some bytes
       ∧ WindowsCommon.qemu_img_info Host.conf "C:\iSCSIVirtualDisks\vol2.vhd"
           (snd (WindowsCommon.fetch_to_vhd Host.conf "img-raw"
                   "C:\iSCSIVirtualDisks\vol2.vhd" Host.with_images))
         = (inr info, w2)
       ∧ file_format info = Some "vpc").
Proof.
  split.
  - apply (proj1 (fetch_to_vhd_rejects_backing_file_and_checks_format Host.conf
                    "img-backed" "C:\iSCSIVirtualDisks\vol2.vhd" Host.with_images)
             "qcow2 base.img" "base.img"); reflexivity.
  - apply (proj2 (fetch_to_vhd_rejects_backing_file_and_checks_format Host.conf
                    "img-raw" "C:\iSCSIVirtualDisks\vol2.vhd" Host.with_images)).
    + vm_compute. reflexivity.
    + intros H. vm_compute in H. discriminate H.
Defined.

Lemma upload_volume_leaves_scratch_copy_witness :
  let w1 := snd (WindowsCommon.upload_volume Host.conf Host.image1
                   "C:\iSCSIVirtualDisks\vol1.vhd" Host.exported) in
  fst (WindowsCommon.upload_volume Host.conf Host.image1
         "C:\iSCSIVirtualDisks\vol1.vhd" Host.exported) = inr tt
  ∧ files Host.exported !! "C:\ImageConversionDir\img1.vhd" = None
  ∧ files w1 !! "C:\ImageConversionDir\img1.vhd" = Some "vpc"
  ∧ files w1 !! "C:\ImageConversionDir\tmpq3x7" = None.
Proof.
  split; [vm_compute; reflexivity|]. split; [reflexivity|].
  refine (upload_volume_leaves_scratch_copy Host.conf Host.image1
            "C:\iSCSIVirtualDisks\vol1.vhd" "vpc" Host.exported _ _ _ _).
  - intros H. vm_compute in H. discriminate H.
  - reflexivity.
  - reflexivity.
  - intros H. vm_compute in H. discriminate H.
Defined.

(** * The rest of the driver *)

Section Lifecycle.
Context `{Ext : Externals} `{Prov : Provider}.
Variable CONF : Conf.

(** ** Creating a volume *)

Lemma fresh_disk_id (l : list WT_Disk.t) (d : WT_Disk.t) :
  d ∈ l → WT_Disk.WTD d ≠ fresh_id (WT_Disk.WTD <$> l).
Proof.
  intros Hd. apply Z.lt_neq, fresh_id_gt.
  apply list_elem_of_fmap. now exists d.
Qed.

Lemma same_store_refl (w : world) : same_store w w.
Proof. now repeat split. Qed.

Lemma same_store_record (e : event) (w : world) : same_store w (record e w).
Proof. now repeat split. Qed.

(** [local_path] returns the path; the store is as it was. *)
Lemma local_path_frame (v : Volume) (w : world) :
  ∃ w0,
    WindowsDriver.local_path CONF v w
    = (inr (os_path_join (windows_iscsi_lun_path CONF) (vol_name v +:+ ".vhd")), w0)
    ∧ same_store w w0.
Proof.
  unfold WindowsDriver.local_path, os_path_exists, os_makedirs. py_run.
  destruct (bool_decide _); py_run; eexists; (split; [reflexivity|]);
    now repeat split.
Qed.

(** What [create_volume] does when the provider accepts and no file lies at
    the path: one more disk, under a new handle, with the volume's name as
    description and 1024 MB for each GB, and its file. *)
Lemma create_volume_run (volume : Volume) (w : world) :
  let vhd_path :=
    os_path_join (windows_iscsi_lun_path CONF) (vol_name volume +:+ ".vhd") in
  let new :=
    WT_Disk.Build_t (fresh_id (WT_Disk.WTD <$> disks w)) (vol_name volume) vhd_path
      (vol_size volume * 1024) in
  NewWTDisk_fault vhd_path (vol_name volume) (vol_size volume * 1024) (disks w) = None →
  files w !! vhd_path = None →
  ∃ w1,
    WindowsDriver.create_volume CONF volume w = (inr tt, w1)
    ∧ disks w1 = disks w ++ [new]
    ∧ files w1 = <[vhd_path := NewWTDisk_bytes (vol_size volume * 1024)]> (files w)
    ∧ hosts w1 = hosts w
    ∧ snapshots w1 = snapshots w.
Proof.
  intros vhd_path new Hfault Hnone.
  destruct (local_path_frame volume w)
    as (w0 & Hrun & _ & Hhosts & Hdisks & Hsnaps & _ & Hfiles & _).
  fold vhd_path in Hrun.
  unfold WindowsDriver.create_volume. rewrite (bind_ok _ _ _ _ _ Hrun).
  unfold WindowsCommon.create_volume, WT_Disk_NewWTDisk.
  py_run. rewrite Hdisks, Hfault. py_run. rewrite Hfiles, Hnone.
  eexists. split; [reflexivity|]. cbn. now rewrite Hhosts, Hsnaps.
Qed.

(** X1. A volume that is created and then deleted leaves the store as it
    found it: when no disk carries the volume's name, no file lies at the
    volume's path and the provider accepts, [create_volume] adds the disk
    and its file, and [delete_volume] right after removes both. *)
Theorem create_then_delete_volume (volume : Volume) (w : world) :
  let vhd_path :=
    os_path_join (windows_iscsi_lun_path CONF) (vol_name volume +:+ ".vhd") in
  (∀ d, d ∈ disks w → WT_Disk.Description d ≠ vol_name volume) →
  files w !! vhd_path = None →
  NewWTDisk_fault vhd_path (vol_name volume) (vol_size volume * 1024) (disks w) = None →
  ∃ w1 w2,
    WindowsDriver.create_volume CONF volume w = (inr tt, w1)
    ∧ (∃ d, d ∈ disks w1 ∧ WT_Disk.Description d = vol_name volume
            ∧ WT_Disk.DevicePath d = vhd_path
            ∧ WT_Disk.SizeInMB d = vol_size volume * 1024)
    ∧ is_Some (files w1 !! vhd_path)
    ∧ WindowsDriver.delete_volume CONF volume w1 = (inr tt, w2)
    ∧ disks w2 = disks w
    ∧ files w2 = files w.
Proof.
  intros vhd_path Hnone Hfile Hfault.
  destruct (create_volume_run volume w Hfault Hfile)
    as (w1 & Hcreate & Hdisks & Hfiles & _).
  fold vhd_path in Hdisks, Hfiles.
  set (new := WT_Disk.Build_t (fresh_id (WT_Disk.WTD <$> disks w)) (vol_name volume)
                vhd_path (vol_size volume * 1024)) in *.
  exists w1.
  destruct (local_path_frame volume w1)
    as (w0 & Hrun & _ & _ & Hdisks0 & _ & _ & Hfiles0 & _).
  fold vhd_path in Hrun.
  eexists. split; [exact Hcreate|]. split.
  { exists new. rewrite Hdisks. split; [|now repeat split].
    apply elem_of_app. right. left. }
  split; [rewrite Hfiles, lookup_insert_eq; eauto|].
  unfold WindowsDriver.delete_volume. rewrite (bind_ok _ _ _ _ _ Hrun).
  unfold WindowsCommon.delete_volume, WT_Disk_by_Description, WT_Disk_Delete_,
    CIM_DataFile_query, CIM_DataFile_Delete.
  py_run. rewrite Hdisks0, Hdisks, filter_app, (filter_none _ _ Hnone).
  rewrite filter_cons_True by reflexivity. py_run.
  rewrite Hfiles0, Hfiles, lookup_insert_eq. py_run.
  split; [reflexivity|]. split.
  - rewrite filter_app, filter_cons_False by (cbn; tauto).
    cbn. rewrite app_nil_r. apply filter_all.
    intros x Hx. now apply fresh_disk_id.
  - now apply delete_insert_id.
Qed.

(** X2. Growing a new volume: after [create_volume], when [extend_volume]
    to [new_size] is accepted by the provider, the volume's disk has
    [new_size * 1024] MB, and the disks that were there are as they were. *)
Theorem create_then_extend_volume (volume : Volume) (new_size : Z) (w : world) :
  let vhd_path :=
    os_path_join (windows_iscsi_lun_path CONF) (vol_name volume +:+ ".vhd") in
  let wtd := fresh_id (WT_Disk.WTD <$> disks w) in
  let new :=
    WT_Disk.Build_t wtd (vol_name volume) vhd_path (vol_size volume * 1024) in
  (∀ d, d ∈ disks w → WT_Disk.Description d ≠ vol_name volume) →
  files w !! vhd_path = None →
  NewWTDisk_fault vhd_path (vol_name volume) (vol_size volume * 1024) (disks w) = None →
  Extend_fault new ((new_size - vol_size volume) * 1024) = None →
  ∃ w1 w2,
    WindowsDriver.create_volume CONF volume w = (inr tt, w1)
    ∧ WindowsDriver.extend_volume volume new_size w1 = (inr tt, w2)
    ∧ disks w2
      = disks w ++ [WT_Disk.Build_t wtd (vol_name volume) vhd_path (new_size * 1024)].
Proof.
  intros vhd_path wtd new Hnone Hfile Hfault Hext.
  destruct (create_volume_run volume w Hfault Hfile)
    as (w1 & Hcreate & Hdisks & _).
  fold vhd_path wtd new in Hdisks.
  exists w1. eexists. split; [exact Hcreate|].
  unfold WindowsDriver.extend_volume, WindowsCommon.extend, WT_Disk_by_Description,
    WT_Disk_Extend.
  py_run. rewrite Hdisks, filter_app, (filter_none _ _ Hnone).
  rewrite filter_cons_True by reflexivity. py_run. rewrite Hext. py_run.
  split; [reflexivity|].
  rewrite map_app. cbn. rewrite decide_True by reflexivity.
  rewrite map_unchanged.
  - do 3 f_equal. lia.
  - intros x Hx. rewrite decide_False; [reflexivity|]. now apply fresh_disk_id.
Qed.

(** ** Exporting and removing the export *)

(** X3. With a disk to attach: when a disk has the volume's name as its
    description, no target has the name [prefix + name] and the provider
    accepts [NewHost], [create_export] returns
    [{provider_location: prefix + name}] and leaves one more target, of
    that name, with the handle of that disk as its only disk. *)
Theorem create_export_attaches_disk (volume : Volume) (w : world) :
  let target_name := iscsi_target_prefix CONF +:+ vol_name volume in
  (∃ d, d ∈ disks w ∧ WT_Disk.Description d = vol_name volume) →
  (∀ h, h ∈ hosts w → WT_Host.HostName h ≠ target_name) →
  NewHost_fault target_name (hosts w) = None →
  ∃ d w1,
    d ∈ disks w ∧ WT_Disk.Description d = vol_name volume
    ∧ WindowsDriver.create_export CONF volume w
      = (inr {[ "provider_location" := PyStr target_name ]}, w1)
    ∧ hosts w1
      = hosts w ++ [WT_Host.Build_t target_name (NewHost_iqn target_name) [WT_Disk.WTD d]]
    ∧ disks w1 = disks w.
Proof.
  intros target_name Hd Hnone Hfault.
  apply (filter_some (λ d, WT_Disk.Description d = vol_name volume)) in Hd
    as (d & rest & Hq & Hdesc & Hin).
  exists d. eexists. split; [assumption|]. split; [assumption|].
  unfold WindowsDriver.create_export, WindowsDriver._do_export,
    WindowsCommon.create_iscsi_target, WT_Host_NewHost,
    WindowsCommon.add_disk_to_target, WT_Disk_by_Description, WT_Host_query,
    WT_Host_AddWTDisk.
  fold target_name. py_run. rewrite Hfault. py_run. rewrite Hq. py_run.
  rewrite filter_app, (filter_none _ _ Hnone).
  rewrite filter_cons_True by reflexivity. py_run.
  split; [reflexivity|]. split; [|reflexivity].
  rewrite map_app. cbn. rewrite decide_True by reflexivity.
  rewrite map_unchanged; [reflexivity|].
  intros x Hx. rewrite decide_False; [reflexivity|]. now apply Hnone.
Qed.

(** X4. An export that is created and then removed leaves the targets as it
    found them, with or without a disk of the volume's name: when no target
    has the name [prefix + name] and the provider accepts [NewHost],
    [create_export] followed by [remove_export] returns, and targets and
    disks are those from before. *)
Theorem create_then_remove_export (volume : Volume) (w : world) :
  let target_name := iscsi_target_prefix CONF +:+ vol_name volume in
  (∀ h, h ∈ hosts w → WT_Host.HostName h ≠ target_name) →
  NewHost_fault target_name (hosts w) = None →
  ∃ w1 w2,
    WindowsDriver.create_export CONF volume w
    = (inr {[ "provider_location" := PyStr target_name ]}, w1)
    ∧ (∃ h, h ∈ hosts w1 ∧ WT_Host.HostName h = target_name)
    ∧ WindowsDriver.remove_export CONF volume w1 = (inr tt, w2)
    ∧ hosts w2 = hosts w
    ∧ disks w2 = disks w.
Proof.
  intros target_name Hnone Hfault.
  assert (Hkeep : filter (λ x, WT_Host.HostName x ≠ target_name) (hosts w) = hosts w)
    by now apply filter_all.
  unfold WindowsDriver.create_export, WindowsDriver._do_export,
    WindowsDriver.remove_export, WindowsCommon.remove_iscsi_target,
    WindowsCommon.create_iscsi_target, WT_Host_NewHost,
    WindowsCommon.add_disk_to_target, WT_Disk_by_Description, WT_Host_query,
    WT_Host_AddWTDisk, WT_Host_RemoveAllWTDisks, WT_Host_Delete_.
  fold target_name. py_run. rewrite Hfault. py_run.
  destruct (filter _ (disks w)) as [|d rest]; py_run.
  - do 2 eexists. split; [reflexivity|]. cbn.
    split; [eexists; split; [apply elem_of_app; right; left|reflexivity]|].
    rewrite filter_app, (filter_none _ _ Hnone).
    rewrite filter_cons_True by reflexivity. py_run.
    split; [reflexivity|]. split; [|reflexivity].
    rewrite map_app. cbn. rewrite decide_True by reflexivity.
    rewrite filter_app, filter_cons_False by (cbn; tauto). cbn.
    rewrite app_nil_r, map_unchanged; [assumption|].
    intros x Hx. rewrite decide_False; [reflexivity|]. now apply Hnone.
  - rewrite filter_app, (filter_none _ _ Hnone).
    rewrite filter_cons_True by reflexivity. py_run.
    rewrite map_app. cbn. rewrite decide_True by reflexivity.
    rewrite (map_unchanged _ (hosts w))
      by (intros x Hx; rewrite decide_False; [reflexivity|]; now apply Hnone).
    do 2 eexists. split; [reflexivity|]. cbn.
    split; [eexists; split; [apply elem_of_app; right; left|reflexivity]|].
    rewrite filter_app, (filter_none _ _ Hnone).
    rewrite filter_cons_True by reflexivity. py_run.
    split; [reflexivity|]. split; [|reflexivity].
    rewrite map_app. cbn. rewrite decide_True by reflexivity.
    rewrite filter_app, filter_cons_False by (cbn; tauto). cbn.
    rewrite app_nil_r, map_unchanged; [assumption|].
    intros x Hx. rewrite decide_False; [reflexivity|]. now apply Hnone.
Qed.

(** X5. [remove_export] of what is not exported fails: when no target has
    the name [prefix + name] it raises [IndexError], from [[0]] on the empty
    result, and the store is as it was; so a second [remove_export] after
    one that returned raises too. *)
Theorem remove_export_twice (volume : Volume) (w : world) :
  let target_name := iscsi_target_prefix CONF +:+ vol_name volume in
  ((∀ h, h ∈ hosts w → WT_Host.HostName h ≠ target_name) →
   ∃ w1,
     WindowsDriver.remove_export CONF volume w = (inl IndexError, w1)
     ∧ same_store w w1)
  ∧ (∀ w1,
       WindowsDriver.remove_export CONF volume w = (inr tt, w1) →
       (∀ h, h ∈ hosts w1 → WT_Host.HostName h ≠ target_name)
       ∧ fst (WindowsDriver.remove_export CONF volume w1) = inl IndexError).
Proof.
  intros target_name.
  assert (Hfail : ∀ w0,
            (∀ h, h ∈ hosts w0 → WT_Host.HostName h ≠ target_name) →
            ∃ w1,
              WindowsDriver.remove_export CONF volume w0 = (inl IndexError, w1)
              ∧ same_store w0 w1).
  { intros w0 Hnone.
    unfold WindowsDriver.remove_export, WindowsCommon.remove_iscsi_target, WT_Host_query.
    fold target_name. py_run. rewrite (filter_none _ _ Hnone). py_run.
    eexists. split; [reflexivity|]. now repeat split. }
  split; [apply Hfail|].
  intros w1 Hrun.
  assert (Hgone : ∀ h, h ∈ hosts w1 → WT_Host.HostName h ≠ target_name).
  { revert Hrun.
    unfold WindowsDriver.remove_export, WindowsCommon.remove_iscsi_target, WT_Host_query,
      WT_Host_RemoveAllWTDisks, WT_Host_Delete_.
    fold target_name. py_run.
    destruct (filter _ (hosts w)) as [|h0 rest] eqn:Hq; py_run; [discriminate|].
    assert (Hname : WT_Host.HostName h0 = target_name).
    { assert (Hin : h0 ∈ filter (λ h, WT_Host.HostName h = target_name) (hosts w))
        by (rewrite Hq; left).
      now apply list_elem_of_filter in Hin. }
    intros [= <-]. cbn. intros h Hh.
    apply list_elem_of_filter in Hh as [Hh _]. now rewrite <- Hname. }
  split; [assumption|].
  destruct (Hfail w1 Hgone) as (w2 & -> & _). reflexivity.
Qed.

(** ** Snapshots *)

(** X6. Without their object the snapshot operations fail and change
    nothing: [create_snapshot] of a volume that no disk is named after
    raises [IndexError] before any snapshot is asked for, and
    [delete_snapshot] of a name that no snapshot carries raises
    [IndexError]. *)
Theorem snapshot_without_object (snapshot : Snapshot) (w : world) :
  ((∀ d, d ∈ disks w → WT_Disk.Description d ≠ snap_volume_name snapshot) →
   ∃ w1,
     WindowsDriver.create_snapshot snapshot w = (inl IndexError, w1)
     ∧ same_store w w1
     ∧ events w1
       = events w
         ++ [WMI "WT_Disk" "query" [("Description", PyStr (snap_volume_name snapshot))]])
  ∧ ((∀ s, s ∈ snapshots w → WT_Snapshot.Description s ≠ snap_name snapshot) →
     ∃ w1,
       WindowsDriver.delete_snapshot snapshot w = (inl IndexError, w1)
       ∧ same_store w w1).
Proof.
  split; intros Hnone.
  - unfold WindowsDriver.create_snapshot, WindowsCommon.create_snapshot,
      WT_Disk_by_Description.
    py_run. rewrite (filter_none _ _ Hnone). py_run.
    eexists. split; [reflexivity|]. split; [now repeat split|reflexivity].
  - unfold WindowsDriver.delete_snapshot, WindowsCommon.delete_snapshot,
      WT_Snapshot_by_Description.
    py_run. rewrite (filter_none _ _ Hnone). py_run.
    eexists. split; [reflexivity|]. now repeat split.
Qed.

(** X7. A volume from a snapshot: when no snapshot carries the snapshot's
    name, [create_volume_from_snapshot] raises [IndexError] and the store
    is as it was; when one does, the disk the provider exports from it is
    given the volume's name as description, so one more disk, findable by
    that name, and the snapshots are as they were. *)
Theorem create_volume_from_snapshot_names_disk (volume : Volume) (snapshot : Snapshot)
    (w : world) :
  ((∀ s, s ∈ snapshots w → WT_Snapshot.Description s ≠ snap_name snapshot) →
   ∃ w1,
     WindowsDriver.create_volume_from_snapshot volume snapshot w = (inl IndexError, w1)
     ∧ same_store w w1)
  ∧ ((∃ s, s ∈ snapshots w ∧ WT_Snapshot.Description s = snap_name snapshot) →
     ∃ s w1,
       s ∈ snapshots w ∧ WT_Snapshot.Description s = snap_name snapshot
       ∧ WindowsDriver.create_volume_from_snapshot volume snapshot w = (inr tt, w1)
       ∧ disks w1
         = disks w
           ++ [WT_Disk.Build_t (fresh_id (WT_Disk.WTD <$> disks w)) (vol_name volume)
                 (Export_DevicePath s) (Export_SizeInMB s)]
       ∧ snapshots w1 = snapshots w).
Proof.
  split.
  - intros Hnone.
    unfold WindowsDriver.create_volume_from_snapshot,
      WindowsCommon.create_volume_from_snapshot, WT_Snapshot_by_Description.
    py_run. rewrite (filter_none _ _ Hnone). py_run.
    eexists. split; [reflexivity|]. now repeat split.
  - intros Hs.
    apply (filter_some (λ s, WT_Snapshot.Description s = snap_name snapshot)) in Hs
      as (s & rest & Hq & Hdesc & Hin).
    exists s. eexists. split; [assumption|]. split; [assumption|].
    assert (Hfresh : ∀ d, d ∈ disks w → WT_Disk.WTD d ≠ fresh_id (WT_Disk.WTD <$> disks w))
      by (intros d; apply fresh_disk_id).
    unfold WindowsDriver.create_volume_from_snapshot,
      WindowsCommon.create_volume_from_snapshot, WT_Snapshot_by_Description,
      WT_Snapshot_Export, WT_Disk_by_WTD, WT_Disk_put.
    py_run. rewrite Hq. py_run.
    rewrite filter_app, (filter_none _ _ Hfresh).
    rewrite filter_cons_True by reflexivity. py_run.
    split; [reflexivity|]. split; [|reflexivity].
    rewrite map_app. cbn. rewrite decide_True by reflexivity.
    rewrite map_unchanged; [reflexivity|].
    intros x Hx. now rewrite decide_False by (apply Hfresh, Hx).
Qed.

(** ** Extending and cloning *)

(** X8. [extend_volume] of a volume that no disk is named after returns as
    if it had worked: nothing is asked of the provider but the query, the
    store is as it was, and the log says the disk was not found and then
    that the volume was extended. *)
Theorem extend_volume_without_disk (volume : Volume) (new_size : Z) (w : world) :
  (∀ d, d ∈ disks w → WT_Disk.Description d ≠ vol_name volume) →
  ∃ w1,
    WindowsDriver.extend_volume volume new_size w = (inr tt, w1)
    ∧ same_store w w1
    ∧ events w1
      = events w
        ++ [WMI "WT_Disk" "query" [("Description", PyStr (vol_name volume))];
            Log "debug" "Disk not found: %s" [PyStr (vol_name volume)];
            Log "debug" "Extend volume from %(old_size) to %(new_size)"
              [PyInt (vol_size volume); PyInt new_size]].
Proof.
  intros Hnone.
  unfold WindowsDriver.extend_volume, WindowsCommon.extend, WT_Disk_by_Description.
  py_run. rewrite (filter_none _ _ Hnone). py_run.
  eexists. split; [reflexivity|]. split; [now repeat split|].
  cbn. now rewrite <- !app_assoc.
Qed.

(** X9. [copy_vhd_disk] guards its [[0]] by the length of the result, so it
    returns whether or not the source is there; of a source that is not
    there it copies nothing: the store is as it was and no [Copy] is asked
    for. *)
Theorem copy_vhd_disk_missing_source (source_path destination_path : string) (w : world) :
  fst (WindowsCommon.copy_vhd_disk source_path destination_path w) = inr tt
  ∧ (files w !! source_path = None →
     same_store w (snd (WindowsCommon.copy_vhd_disk source_path destination_path w))
     ∧ events (snd (WindowsCommon.copy_vhd_disk source_path destination_path w))
       = events w ++ [WMI "CIM_DataFile" "query" [("Name", PyStr source_path)]]).
Proof.
  unfold WindowsCommon.copy_vhd_disk, CIM_DataFile_query, CIM_DataFile_Copy.
  py_run. destruct (files w !! source_path); py_run.
  - split; [reflexivity|discriminate].
  - split; [reflexivity|]. intros _. split; [now repeat split|reflexivity].
Qed.

(** X10. Cloning from a volume whose file is missing is creating a volume,
    and no error: whenever [create_volume] returns, [create_cloned_volume]
    returns, and the store is as [create_volume] alone leaves it. *)
Theorem create_cloned_volume_missing_source (volume src_vref : Volume) (w : world) :
  let source_path :=
    os_path_join (windows_iscsi_lun_path CONF) (vol_name src_vref +:+ ".vhd") in
  let vhd_path :=
    os_path_join (windows_iscsi_lun_path CONF) (vol_name volume +:+ ".vhd") in
  files w !! source_path = None →
  source_path ≠ vhd_path →
  ∀ w1,
    WindowsDriver.create_volume CONF volume w = (inr tt, w1) →
    ∃ w2,
      WindowsDriver.create_cloned_volume CONF volume src_vref w = (inr tt, w2)
      ∧ same_store w1 w2.
Proof.
  intros source_path vhd_path Hsrc Hne w1 Hcreate.
  assert (Hsrc1 : files w1 !! source_path = None).
  { revert Hcreate.
    destruct (local_path_frame volume w)
      as (w0 & Hrun & _ & _ & _ & _ & _ & Hfiles & _).
    fold vhd_path in Hrun.
    unfold WindowsDriver.create_volume. rewrite (bind_ok _ _ _ _ _ Hrun).
    unfold WindowsCommon.create_volume, WT_Disk_NewWTDisk.
    py_run. destruct (NewWTDisk_fault _ _ _ _); py_run; [discriminate|].
    intros [= <-]. cbn. rewrite Hfiles.
    destruct (files w !! vhd_path); [assumption|].
    now rewrite lookup_insert_ne by congruence. }
  destruct (local_path_frame src_vref w1) as (w1a & Hrun1 & Hs1).
  destruct (local_path_frame volume w1a) as (w1b & Hrun2 & Hs2).
  fold source_path in Hrun1. fold vhd_path in Hrun2.
  unfold WindowsDriver.create_cloned_volume.
  rewrite (bind_ok _ _ _ _ _ Hcreate), (bind_ok _ _ _ _ _ Hrun1),
    (bind_ok _ _ _ _ _ Hrun2).
  destruct Hs1 as (? & ? & ? & ? & ? & Hf1 & ?).
  destruct Hs2 as (? & ? & ? & ? & ? & Hf2 & ?).
  unfold WindowsCommon.copy_vhd_disk, CIM_DataFile_query.
  py_run. rewrite Hf2, Hf1, Hsrc1. py_run.
  eexists. split; [reflexivity|].
  repeat split; cbn; congruence.
Qed.

(** ** Binding an initiator *)

(** X11. Called with its arguments in the order it declares,
    [associate_initiator_with_iscsi_target] is undone by
    [delete_iscsi_target]: the entry stored has the target as [HostName]
    and the initiator as [Value], the unbind finds it, and where it was not
    there before the entries end as they began. *)
Theorem associate_then_delete_iscsi_target (initiator_name target_name : string)
    (w : world) :
  let m := WT_IDMethod.Build_t target_name 4 initiator_name in
  m ∉ idmethods w →
  ∃ w1 w2,
    WindowsCommon.associate_initiator_with_iscsi_target initiator_name target_name w
    = (inr tt, w1)
    ∧ idmethods w1 = idmethods w ++ [m]
    ∧ WindowsCommon.delete_iscsi_target initiator_name target_name w1 = (inr tt, w2)
    ∧ idmethods w2 = idmethods w.
Proof.
  intros m Hnot.
  assert (Hkeep : filter (λ x, x ≠ m) (idmethods w) = idmethods w).
  { apply filter_all. intros x Hx ->. contradiction. }
  assert (Hnone : filter (λ x, x = m) (idmethods w) = []).
  { apply filter_none. intros x Hx ->. contradiction. }
  unfold WindowsCommon.associate_initiator_with_iscsi_target,
    WindowsCommon.delete_iscsi_target, WT_IDMethod_put, WT_IDMethod_query,
    WT_IDMethod_Delete_.
  fold m. py_run. rewrite decide_False by assumption.
  do 2 eexists. split; [reflexivity|]. cbn. split; [reflexivity|].
  fold m. rewrite filter_app, Hnone, filter_cons_True by reflexivity. py_run.
  split; [reflexivity|].
  rewrite filter_app, Hkeep, filter_cons_False by (cbn; tauto).
  cbn. apply app_nil_r.
Qed.

(** X12. [initialize_connection] stores its entry before it looks anything
    up, and keeps it when the lookup fails: with no target of the volume's
    [provider_location], or with no portal, it raises [IndexError], and with
    an authentication string that is not empty and has not three fields it
    raises [ValueError]; in each case the entry is among the identification
    methods afterwards. *)
Theorem initialize_connection_fails_after_bind (volume : Volume) (connector : Connector)
    (w : world) :
  let m := WT_IDMethod.Build_t (initiator connector) 4 (vol_provider_location volume) in
  let r := WindowsDriver.initialize_connection volume connector w in
  (m ∈ idmethods (snd r))
  ∧ (portals w = [] → fst r = inl IndexError)
  ∧ ((∀ h, h ∈ hosts w → WT_Host.HostName h ≠ vol_provider_location volume) →
     fst r = inl IndexError)
  ∧ (∀ auth,
       portals w ≠ [] →
       (∃ h, h ∈ hosts w ∧ WT_Host.HostName h = vol_provider_location volume) →
       vol_provider_auth volume = Some auth →
       auth ≠ EmptyString →
       length (String.words auth) ≠ 3%nat →
       fst r = inl ValueError).
Proof.
  intros m r. subst r. split.
  { pose proof (initialize_connection_idmethods volume connector w) as Hid.
    cbv zeta in Hid. fold m in Hid. rewrite Hid.
    destruct (decide (m ∈ idmethods w)); [assumption|].
    apply elem_of_app. right. left. }
  unfold WindowsDriver.initialize_connection,
    WindowsCommon.associate_initiator_with_iscsi_target, WT_IDMethod_put,
    WindowsCommon.get_host_information, WindowsCommon.get_host_information_properties,
    WT_Portal_all, WT_Host_query.
  py_run. split; [|split].
  - intros ->. reflexivity.
  - intros Hnone. destruct (portals w); py_run; [reflexivity|].
    now rewrite (filter_none _ _ Hnone).
  - intros auth Hp Hh Hauth Hne Hlen.
    destruct (portals w); [contradiction|]. py_run.
    apply (filter_some (λ h, WT_Host.HostName h = vol_provider_location volume)) in Hh
      as (h & rest & Hq & _).
    rewrite Hq, Hauth. py_run.
    destruct auth as [|a auth]; [contradiction|]. py_run.
    unfold split3.
    destruct (String.words (String a auth)) as [|x [|y [|z [|? ?]]]];
      try reflexivity.
    now contradiction Hlen.
Qed.

(** ** The setup check *)

(** X13. [check_for_setup_error] looks at the first portal only: with no
    portal it raises [IndexError], not the backend exception; with a first
    portal that does not listen it raises [VolumeBackendAPIException]; with
    one that listens it returns.  It changes nothing. *)
Theorem check_for_setup_error_first_portal (w : world) :
  fst (WindowsDriver.check_for_setup_error w)
  = match portals w with
    | [] => inl IndexError
    | p :: _ =>
        if WT_Portal.Listen p then inr tt
        else inl (VolumeBackendAPIException EmptyString)
    end
  ∧ same_store w (snd (WindowsDriver.check_for_setup_error w)).
Proof.
  unfold WindowsDriver.check_for_setup_error, WindowsCommon.check_for_setup_error,
    WT_Portal_all, same_store.
  py_run. destruct (portals w) as [|p ps]; py_run.
  - split; [reflexivity|now repeat split].
  - destruct (WT_Portal.Listen p); py_run; (split; [reflexivity|now repeat split]).
Qed.

(** ** Statistics *)

(** X14. [get_volume_stats] with [refresh] computes the statistics from the
    configuration alone and caches them: the backend name is the configured
    one when there is a configuration and the name is set and not empty,
    and the name of the class otherwise; what was cached before does not
    matter; and a call without [refresh] right after returns the same
    dictionary and touches nothing. *)
Theorem get_volume_stats_refresh (self : DriverState) (w : world) :
  ∃ stats self1 w1,
    WindowsDriver.get_volume_stats self true w = (inr (stats, self1), w1)
    ∧ stats !! "volume_backend_name"
      = Some (PyStr match configuration self with
                    | Some {| volume_backend_name := Some name |} =>
                        if decide (name = EmptyString) then "WindowsDriver" else name
                    | _ => "WindowsDriver"
                    end)
    ∧ stats !! "total_capacity_gb" = Some (PyStr "infinite")
    ∧ stats !! "free_capacity_gb" = Some (PyStr "infinite")
    ∧ stats !! "reserved_percentage" = Some (PyInt 100)
    ∧ (∀ cached w',
         fst (WindowsDriver.get_volume_stats
                {| configuration := configuration self; _stats := cached |} true w')
         = inr (stats, self1))
    ∧ WindowsDriver.get_volume_stats self1 false w1 = (inr (stats, self1), w1)
    ∧ same_store w w1.
Proof.
  unfold WindowsDriver.get_volume_stats, WindowsDriver._update_volume_stats.
  py_run. do 3 eexists. split; [reflexivity|].
  split.
  { rewrite !lookup_insert_ne by discriminate. rewrite lookup_insert_eq.
    do 2 f_equal. unfold WindowsDriver.str_or, WindowsDriver.class_name.
    destruct (configuration self) as [[[[|a name]|]]|]; reflexivity. }
  split; [now rewrite !lookup_insert_ne by discriminate; rewrite lookup_insert_eq|].
  split; [now rewrite !lookup_insert_ne by discriminate; rewrite lookup_insert_eq|].
  split; [now rewrite !lookup_insert_ne by discriminate; rewrite lookup_insert_eq|].
  split; [reflexivity|]. split; [reflexivity|]. now repeat split.
Qed.

(** ** The root directory *)


(** ** Images *)

Lemma run_ok {A} (m : Py A) (w : world) (a : A) (P : world → Prop) :
  fst (m w) = inr a ∧ P (snd (m w)) → ∃ w2, m w = (inr a, w2) ∧ P w2.
Proof.
  destruct (m w) as [r w2]. cbn. intros [-> HP]. now exists w2.
Qed.

(** X16. [copy_volume_to_image] to a [vhd] image streams the volume's file
    as it is: the image service, when it accepts, holds the file's bytes
    under the image's id; when it refuses, its exception comes through; and
    when the volume has no file, opening it raises [IOError].  The files are
    never touched. *)
Theorem copy_volume_to_image_vhd (volume : Volume) (image_meta : ImageMeta) (w : world) :
  let volume_path :=
    os_path_join (windows_iscsi_lun_path CONF) (vol_name volume +:+ ".vhd") in
  disk_format image_meta = "vhd" →
  (∀ bytes,
     files w !! volume_path = Some bytes →
     update_fault (img_id image_meta) bytes = None →
     ∃ w1,
       WindowsDriver.copy_volume_to_image CONF volume image_meta w = (inr tt, w1)
       ∧ images w1 = <[img_id image_meta := bytes]> (images w)
       ∧ files w1 = files w)
  ∧ (∀ bytes e,
       files w !! volume_path = Some bytes →
       update_fault (img_id image_meta) bytes = Some e →
       ∃ w1,
         WindowsDriver.copy_volume_to_image CONF volume image_meta w = (inl e, w1)
         ∧ same_store w w1)
  ∧ (files w !! volume_path = None →
     ∃ w1,
       WindowsDriver.copy_volume_to_image CONF volume image_meta w
       = (inl (IOError volume_path), w1)
       ∧ same_store w w1).
Proof.
  intros volume_path Hfmt.
  destruct (local_path_frame volume w) as (w0 & Hrun & Hs).
  fold volume_path in Hrun.
  destruct Hs as (Hp & Hh & Hd & Hsn & Hi & Hf & Him).
  unfold WindowsDriver.copy_volume_to_image. rewrite (bind_ok _ _ _ _ _ Hrun).
  unfold WindowsCommon.upload_volume, file_open, image_service_update.
  rewrite bool_decide_eq_true_2 by assumption.
  py_run. rewrite Hf.
  split; [|split].
  - intros bytes -> Hup. py_run. rewrite Hup.
    eexists. split; [reflexivity|]. cbn. now rewrite ?Him, ?Hf.
  - intros bytes e -> Hup. py_run. rewrite Hup.
    eexists. split; [reflexivity|]. now repeat split.
  - intros ->. py_run. eexists. split; [reflexivity|]. now repeat split.
Qed.

(** X17. An upload to another format delivers the converted file: when the
    image is not to be a [vhd], the volume has a file, nothing lies at the
    scratch path, the converter writes [out] for it, [out] probes as the
    format asked for and the image service accepts, [upload_volume] returns
    and the service holds [out] under the image's id; when [out] probes as
    anything else, [ImageUnacceptable] is raised and the service holds what
    it held. *)
Theorem upload_volume_converted (image_meta : ImageMeta) (volume_path bytes out : string)
    (w : world) :
  let temp_vhd_path :=
    os_path_join (image_conversion_dir CONF) (img_id image_meta +:+ ".vhd") in
  let tmp :=
    mkstemp_name (image_conversion_dir CONF) (<[temp_vhd_path := bytes]> (files w)) in
  let r := WindowsCommon.upload_volume CONF image_meta volume_path w in
  disk_format image_meta ≠ "vhd" →
  files w !! volume_path = Some bytes →
  files w !! temp_vhd_path = None →
  tmp ≠ temp_vhd_path →
  qemu_convert_to (disk_format image_meta) bytes = Some out →
  (file_format (qemu_info_of out) = Some (disk_format image_meta) →
   update_fault (img_id image_meta) out = None →
   fst r = inr tt ∧ images (snd r) = <[img_id image_meta := out]> (images w))
  ∧ (file_format (qemu_info_of out) ≠ Some (disk_format image_meta) →
     fst r
     = inl (ImageUnacceptable (img_id image_meta)
              ("Converted to " +:+ disk_format image_meta +:+ ", but format is now "
               +:+ str_opt (file_format (qemu_info_of out))))
     ∧ images (snd r) = images w).
Proof.
  intros temp_vhd_path tmp r Hfmt Hsrc Hnone Hne Hconv. subst r.
  unfold WindowsCommon.upload_volume, WindowsCommon.ensure_conversion_dir, mkstemp,
    os_path_exists, os_makedirs, WindowsCommon.qemu_img_info, delete_if_exists,
    WindowsCommon.convert_image, WindowsCommon.copy_vhd_disk, CIM_DataFile_query,
    CIM_DataFile_Copy, file_open, image_service_update, os_unlink.
  rewrite bool_decide_eq_false_2 by assumption.
  py_run. fold temp_vhd_path.
  destruct (negb _ && negb _); py_run.
  all: rewrite Hsrc; py_run; rewrite Hnone; py_run; fold tmp.
  all: rewrite lookup_insert_ne by assumption; rewrite lookup_insert_eq; py_run.
  all: rewrite Hconv; py_run; rewrite lookup_insert_eq; py_run.
  all: split.
  all: try (intros Hok Hup; rewrite bool_decide_eq_false_2 by (intros H; now apply H);
            py_run; rewrite lookup_insert_eq; py_run; rewrite Hup; py_run;
            rewrite lookup_insert_eq; py_run; split; reflexivity).
  all: intros Hbad; rewrite bool_decide_eq_true_2 by assumption; py_run;
       split; reflexivity.
Qed.

(** X18. An image whose format cannot be determined is refused before its
    backing file is looked at: [fetch_to_vhd] raises [ImageUnacceptable]
    with the reason that parsing failed, whatever the probe says of a
    backing file, and the files are as they were. *)
Theorem fetch_to_vhd_unknown_format (image_id dest bytes : string) (w : world) :
  let tmp := mkstemp_name (image_conversion_dir CONF) (files w) in
  images w !! image_id = Some bytes →
  file_format (qemu_info_of bytes) = None →
  files w !! tmp = None →
  ∃ w1,
    WindowsCommon.fetch_to_vhd CONF image_id dest w
    = (inl (ImageUnacceptable image_id "'qemu-img info' parsing failed."), w1)
    ∧ files w1 = files w.
Proof.
  intros tmp Himg Hfmt Hfresh.
  unfold WindowsCommon.fetch_to_vhd, WindowsCommon.ensure_conversion_dir,
    temporary_file, mkstemp, os_path_exists, os_makedirs, image_utils_fetch,
    WindowsCommon.qemu_img_info, delete_if_exists.
  py_run. fold tmp.
  destruct (negb _ && negb _); py_run; fold tmp; rewrite Himg; py_run;
    rewrite lookup_insert_eq; py_run; rewrite Hfmt; py_run;
    eexists; (split; [reflexivity|]); cbn;
    rewrite insert_insert_eq; now apply delete_insert_id.
Qed.

(** X19. A conversion that does not give a [vpc] file is found out too
    late for the destination: when the image is of another format, without
    a backing file, and what the converter writes does not probe as [vpc],
    [fetch_to_vhd] raises [ImageUnacceptable], and the destination holds
    the converter's output, in place of whatever it held. *)
Theorem fetch_to_vhd_failed_conversion_stays (image_id dest bytes fmt out : string)
    (w : world) :
  let tmp := mkstemp_name (image_conversion_dir CONF) (files w) in
  images w !! image_id = Some bytes →
  file_format (qemu_info_of bytes) = Some fmt →
  backing_file (qemu_info_of bytes) = None →
  contains "vpc" fmt = false →
  qemu_convert_to "vpc" bytes = Some out →
  file_format (qemu_info_of out) ≠ Some "vpc" →
  files w !! tmp = None →
  tmp ≠ dest →
  ∃ w1,
    WindowsCommon.fetch_to_vhd CONF image_id dest w
    = (inl (ImageUnacceptable image_id
              ("Converted to vhd, but format is now "
               +:+ str_opt (file_format (qemu_info_of out)))), w1)
    ∧ files w1 = <[dest := out]> (files w).
Proof.
  intros tmp Himg Hfmt Hback Hvpc Hconv Hbad Hfresh Hne.
  unfold WindowsCommon.fetch_to_vhd, WindowsCommon.ensure_conversion_dir,
    temporary_file, mkstemp, os_path_exists, os_makedirs, image_utils_fetch,
    WindowsCommon.qemu_img_info, delete_if_exists, WindowsCommon.convert_image.
  py_run. fold tmp.
  destruct (negb _ && negb _); py_run; fold tmp; rewrite Himg; py_run;
    rewrite lookup_insert_eq; py_run; rewrite Hfmt, Hback, Hvpc; py_run;
    rewrite lookup_insert_eq; py_run; rewrite Hconv; py_run;
    rewrite lookup_insert_eq; py_run;
    rewrite bool_decide_eq_true_2 by assumption; py_run;
    eexists; (split; [reflexivity|]); cbn;
    rewrite delete_insert_ne by assumption;
    rewrite insert_insert_eq; now rewrite delete_insert_id.
Qed.

(** X20. A volume's file comes back from the image service as it went:
    when the file probes as [vpc] without a backing file and is uploaded as
    a [vhd] image, [fetch_to_vhd] of that image to a path where nothing
    lies returns and leaves there a file of the same bytes, and no other
    file is added or changed. *)
Theorem upload_then_fetch (image_meta : ImageMeta) (volume_path dest bytes : string)
    (w : world) :
  let tmp := mkstemp_name (image_conversion_dir CONF) (files w) in
  disk_format image_meta = "vhd" →
  files w !! volume_path = Some bytes →
  update_fault (img_id image_meta) bytes = None →
  file_format (qemu_info_of bytes) = Some "vpc" →
  backing_file (qemu_info_of bytes) = None →
  files w !! tmp = None →
  files w !! dest = None →
  tmp ≠ dest →
  ∃ w1,
    WindowsCommon.upload_volume CONF image_meta volume_path w = (inr tt, w1)
    ∧ ∃ w2,
        WindowsCommon.fetch_to_vhd CONF (img_id image_meta) dest w1 = (inr tt, w2)
        ∧ files w2 = <[dest := bytes]> (files w).
Proof.
  intros tmp Hvhd Hsrc Hup Hfmt Hback Hfresh Hdest Hne.
  unfold WindowsCommon.upload_volume, file_open, image_service_update.
  rewrite bool_decide_eq_true_2 by assumption.
  py_run. rewrite Hsrc. py_run. rewrite Hup. py_run.
  eexists. split; [reflexivity|].
  refine (run_ok _ _ _ (λ w2, files w2 = <[dest := bytes]> (files w)) _).
  unfold WindowsCommon.fetch_to_vhd, WindowsCommon.ensure_conversion_dir,
    temporary_file, mkstemp, os_path_exists, os_makedirs, image_utils_fetch,
    WindowsCommon.qemu_img_info, delete_if_exists, WindowsCommon.copy_vhd_disk,
    CIM_DataFile_query, CIM_DataFile_Copy.
  py_run. fold tmp.
  destruct (negb _ && negb _); py_run; fold tmp;
    repeat (rewrite lookup_insert_eq; py_run); rewrite Hfmt, Hback; py_run;
    repeat (rewrite lookup_insert_eq; py_run);
    rewrite insert_insert_eq, lookup_insert_ne, Hdest by assumption; py_run;
    repeat (rewrite lookup_insert_eq; py_run); rewrite Hfmt; py_run;
    rewrite bool_decide_eq_false_2 by (intros H; now apply H); py_run;
    (split; [reflexivity|]);
    rewrite delete_insert_ne by assumption; now rewrite delete_insert_id.
Qed.

(** ** Exporting again *)

(** X21. On a volume that is exported already, [ensure_export] attaches
    the disk again and [create_export] fails: when the provider refuses
    [NewHost] with ['The file exists'], a target of the name is there and a
    disk has the volume's name, [ensure_export] returns after asking the
    target to add the disk's handle, while [create_export] raises the
    provider's exception and asks nothing more. *)
Theorem export_of_exported_volume (volume : Volume) (info : string) (w : world) :
  let target_name := iscsi_target_prefix CONF +:+ vol_name volume in
  NewHost_fault target_name (hosts w) = Some (x_wmi info) →
  contains "The file exists" info = true →
  (∃ h, h ∈ hosts w ∧ WT_Host.HostName h = target_name) →
  (∃ d, d ∈ disks w ∧ WT_Disk.Description d = vol_name volume) →
  (∃ d w1,
     d ∈ disks w ∧ WT_Disk.Description d = vol_name volume
     ∧ WindowsDriver.ensure_export CONF volume w = (inr tt, w1)
     ∧ ∃ before,
         events w1
         = before
           ++ [WMI "WT_Host" "AddWTDisk"
                 [("HostName", PyStr target_name); ("WTD", PyInt (WT_Disk.WTD d))]])
  ∧ (∃ w1,
       WindowsDriver.create_export CONF volume w = (inl (x_wmi info), w1)
       ∧ same_store w w1
       ∧ events w1
         = events w ++ [WMI "WT_Host" "NewHost" [("HostName", PyStr target_name)]]).
Proof.
  intros target_name Hfault Hinfo Hh Hd.
  apply negb_true_iff in Hinfo.
  apply (filter_some (λ h, WT_Host.HostName h = target_name)) in Hh
    as (h & hs & Hqh & Hname & _).
  apply (filter_some (λ d, WT_Disk.Description d = vol_name volume)) in Hd
    as (d & rest & Hqd & Hdesc & Hin).
  split.
  - exists d. eexists. split; [assumption|]. split; [assumption|].
    unfold WindowsDriver.ensure_export, WindowsDriver._do_export,
      WindowsCommon.create_iscsi_target, WT_Host_NewHost,
      WindowsCommon.com_error_excepinfo2,
      WindowsCommon.add_disk_to_target, WT_Disk_by_Description, WT_Host_query,
      WT_Host_AddWTDisk.
    fold target_name. py_run. rewrite Hfault. py_run. rewrite Hinfo. py_run.
    rewrite Hqd. py_run. rewrite Hqh. py_run.
    split; [reflexivity|]. rewrite Hname. eexists. reflexivity.
  - unfold WindowsDriver.create_export, WindowsDriver._do_export,
      WindowsCommon.create_iscsi_target, WT_Host_NewHost,
      WindowsCommon.com_error_excepinfo2.
    fold target_name. py_run. rewrite Hfault. py_run.
    eexists. split; [reflexivity|]. split; [now repeat split|reflexivity].
Qed.

(** X22. An exception of [NewHost] that is not one of [wmi]'s is lost: it
    has no [com_error], so the handler of [create_iscsi_target] raises
    [AttributeError] in its place, with or without [ensure], and no target
    is made. *)
Theorem create_iscsi_target_masks_foreign_exception (target_name : string)
    (ensure : bool) (e : exn) (w : world) :
  NewHost_fault target_name (hosts w) = Some e →
  (∀ info, e ≠ x_wmi info) →
  ∃ w1,
    WindowsCommon.create_iscsi_target target_name ensure w = (inl AttributeError, w1)
    ∧ same_store w w1.
Proof.
  intros Hfault Hne.
  unfold WindowsCommon.create_iscsi_target, WT_Host_NewHost,
    WindowsCommon.com_error_excepinfo2.
  py_run. rewrite Hfault. py_run.
  destruct e; py_run;
    try (eexists; split; [reflexivity|now repeat split]).
  now contradiction (Hne excepinfo2).
Qed.
End Lifecycle.

(** * The rest of the driver on the storage host *)

Lemma create_then_delete_volume_witness :
  ∃ w1 w2,
    WindowsDriver.create_volume Host.conf Host.vol2 Host.exported = (inr tt, w1)
    ∧ WindowsDriver.delete_volume Host.conf Host.vol2 w1 = (inr tt, w2)
    ∧ disks w2 = disks Host.exported
    ∧ files w2 = files Host.exported.
Proof.
  destruct (create_then_delete_volume Host.conf Host.vol2 Host.exported)
    as (w1 & w2 & H1 & _ & _ & H2 & H3 & H4).
  - intros d Hd. apply list_elem_of_singleton in Hd as ->. discriminate.
  - reflexivity.
  - reflexivity.
  - now exists w1, w2.
Defined.

Lemma create_then_extend_volume_witness :
  ∃ w1 w2,
    WindowsDriver.create_volume Host.conf Host.vol2 Host.exported = (inr tt, w1)
    ∧ WindowsDriver.extend_volume Host.vol2 5 w1 = (inr tt, w2)
    ∧ disks w2
      = [Host.disk1;
         WT_Disk.Build_t 2 "vol2" "C:\iSCSIVirtualDisks\vol2.vhd" 5120].
Proof.
  destruct (create_then_extend_volume Host.conf Host.vol2 5 Host.exported)
    as (w1 & w2 & H1 & H2 & H3).
  - intros d Hd. apply list_elem_of_singleton in Hd as ->. discriminate.
  - reflexivity.
  - reflexivity.
  - reflexivity.
  - exists w1, w2. split; [exact H1|]. split; [exact H2|]. exact H3.
Defined.

Lemma create_export_attaches_disk_witness :
  ∃ w1,
    WindowsDriver.create_export Host.conf Host.vol1 Host.orphaned
    = (inr {[ "provider_location" := PyStr "iqn.2010-10.org.openstack:vol1" ]}, w1)
    ∧ hosts w1
      = [WT_Host.Build_t "iqn.2010-10.org.openstack:vol1"
           "iqn.1991-05.com.microsoft:iqn.2010-10.org.openstack:vol1" [1]].
Proof.
  destruct (create_export_attaches_disk Host.conf Host.vol1 Host.orphaned)
    as (d & w1 & Hin & _ & H1 & H2 & _).
  - exists Host.disk1. split; [left|reflexivity].
  - intros h Hh. inversion Hh.
  - reflexivity.
  - apply list_elem_of_singleton in Hin. subst d.
    exists w1. split; [exact H1|exact H2].
Defined.

Lemma create_then_remove_export_witness :
  ∃ w1 w2,
    WindowsDriver.create_export Host.conf Host.vol1 Host.orphaned
    = (inr {[ "provider_location" := PyStr "iqn.2010-10.org.openstack:vol1" ]}, w1)
    ∧ WindowsDriver.remove_export Host.conf Host.vol1 w1 = (inr tt, w2)
    ∧ hosts w2 = []
    ∧ disks w2 = [Host.disk1].
Proof.
  destruct (create_then_remove_export Host.conf Host.vol1 Host.orphaned)
    as (w1 & w2 & H1 & _ & H2 & H3 & H4).
  - intros h Hh. inversion Hh.
  - reflexivity.
  - now exists w1, w2.
Defined.

Lemma remove_export_twice_witness :
  fst (WindowsDriver.remove_export Host.conf Host.vol1 Host.bare) = inl IndexError
  ∧ fst (WindowsDriver.remove_export Host.conf Host.vol1 Host.exported) = inr tt
  ∧ fst (WindowsDriver.remove_export Host.conf Host.vol1
           (snd (WindowsDriver.remove_export Host.conf Host.vol1 Host.exported)))
    = inl IndexError.
Proof.
  split; [|split; [reflexivity|]].
  - destruct (proj1 (remove_export_twice Host.conf Host.vol1 Host.bare))
      as (w1 & -> & _); [|reflexivity].
    intros h Hh. inversion Hh.
  - apply (proj2 (remove_export_twice Host.conf Host.vol1 Host.exported)).
    reflexivity.
Defined.

Lemma snapshot_without_object_witness :
  fst (WindowsDriver.create_snapshot Host.snap1 Host.bare) = inl IndexError
  ∧ fst (WindowsDriver.delete_snapshot Host.snap1 Host.bare) = inl IndexError.
Proof.
  split.
  - destruct (proj1 (snapshot_without_object Host.snap1 Host.bare))
      as (w1 & -> & _); [|reflexivity].
    intros d Hd. inversion Hd.
  - destruct (proj2 (snapshot_without_object Host.snap1 Host.bare))
      as (w1 & -> & _); [|reflexivity].
    intros s Hs. inversion Hs.
Defined.

Lemma create_volume_from_snapshot_names_disk_witness :
  fst (WindowsDriver.create_volume_from_snapshot Host.vol2 Host.snap1 Host.bare)
    = inl IndexError
  ∧ ∃ w1,
      WindowsDriver.create_volume_from_snapshot Host.vol2 Host.snap1 Host.snapshotted
      = (inr tt, w1)
      ∧ disks w1
        = [Host.disk1; WT_Disk.Build_t 2 "vol2" "C:\iSCSIVirtualDisks\export-1" 1024].
Proof.
  split.
  - destruct (proj1 (create_volume_from_snapshot_names_disk
                       Host.vol2 Host.snap1 Host.bare))
      as (w1 & -> & _); [|reflexivity].
    intros s Hs. inversion Hs.
  - destruct (proj2 (create_volume_from_snapshot_names_disk
                       Host.vol2 Host.snap1 Host.snapshotted))
      as (s & w1 & Hin & _ & H1 & H2 & _).
    + exists (WT_Snapshot.Build_t 1 "snap1" 1). split; [left|reflexivity].
    + apply list_elem_of_singleton in Hin. subst s.
      exists w1. split; [exact H1|exact H2].
Defined.

Lemma extend_volume_without_disk_witness :
  ∃ w1,
    WindowsDriver.extend_volume Host.vol2 5 Host.exported = (inr tt, w1)
    ∧ disks w1 = [Host.disk1].
Proof.
  destruct (extend_volume_without_disk Host.vol2 5 Host.exported)
    as (w1 & H1 & (_ & _ & H2 & _) & _).
  - intros d Hd. apply list_elem_of_singleton in Hd as ->. discriminate.
  - exists w1. split; [exact H1|exact H2].
Defined.

Lemma copy_vhd_disk_missing_source_witness :
  same_store Host.bare
    (snd (WindowsCommon.copy_vhd_disk "C:\iSCSIVirtualDisks\vol1.vhd"
            "C:\iSCSIVirtualDisks\vol2.vhd" Host.bare)).
Proof.
  apply (proj2 (copy_vhd_disk_missing_source "C:\iSCSIVirtualDisks\vol1.vhd"
                  "C:\iSCSIVirtualDisks\vol2.vhd" Host.bare)).
  reflexivity.
Defined.

Lemma create_cloned_volume_missing_source_witness :
  ∃ w2,
    WindowsDriver.create_cloned_volume Host.conf Host.vol2 Host.vol1 Host.orphaned
    = (inr tt, w2)
    ∧ files w2 = {[ "C:\iSCSIVirtualDisks\vol2.vhd" := "vpc" ]}.
Proof.
  destruct (create_cloned_volume_missing_source Host.conf Host.vol2 Host.vol1
              Host.orphaned)
    with (w1 := snd (WindowsDriver.create_volume Host.conf Host.vol2 Host.orphaned))
    as (w2 & H1 & (_ & _ & _ & _ & _ & H2 & _)).
  - reflexivity.
  - intros H. vm_compute in H. discriminate H.
  - vm_compute. reflexivity.
  - exists w2. split; [exact H1|]. rewrite H2. vm_compute. reflexivity.
Defined.

Lemma associate_then_delete_iscsi_target_witness :
  ∃ w1 w2,
    WindowsCommon.associate_initiator_with_iscsi_target
      "iqn.1991-05.com.microsoft:compute1" "iqn.2010-10.org.openstack:vol1" Host.exported
    = (inr tt, w1)
    ∧ idmethods w1
      = [WT_IDMethod.Build_t "iqn.2010-10.org.openstack:vol1" 4
           "iqn.1991-05.com.microsoft:compute1"]
    ∧ WindowsCommon.delete_iscsi_target
        "iqn.1991-05.com.microsoft:compute1" "iqn.2010-10.org.openstack:vol1" w1
      = (inr tt, w2)
    ∧ idmethods w2 = [].
Proof.
  destruct (associate_then_delete_iscsi_target
              "iqn.1991-05.com.microsoft:compute1" "iqn.2010-10.org.openstack:vol1"
              Host.exported)
    as (w1 & w2 & H1 & H2 & H3 & H4).
  - intros H. inversion H.
  - now exists w1, w2.
Defined.

Lemma initialize_connection_fails_after_bind_witness :
  fst (WindowsDriver.initialize_connection Host.vol1 Host.connector1 Host.no_portal)
    = inl IndexError
  ∧ fst (WindowsDriver.initialize_connection Host.vol1 Host.connector1 Host.bare)
    = inl IndexError
  ∧ fst (WindowsDriver.initialize_connection Host.vol1_two_fields Host.connector1
           Host.exported)
    = inl ValueError
  ∧ WT_IDMethod.Build_t "iqn.1991-05.com.microsoft:compute1" 4
      "iqn.2010-10.org.openstack:vol1"
    ∈ idmethods (snd (WindowsDriver.initialize_connection Host.vol1_two_fields
                        Host.connector1 Host.exported)).
Proof.
  destruct (initialize_connection_fails_after_bind Host.vol1 Host.connector1
              Host.no_portal) as (_ & H1 & _).
  destruct (initialize_connection_fails_after_bind Host.vol1 Host.connector1
              Host.bare) as (_ & _ & H2 & _).
  destruct (initialize_connection_fails_after_bind Host.vol1_two_fields Host.connector1
              Host.exported) as (H4 & _ & _ & H3).
  split; [apply H1; reflexivity|].
  split; [apply H2; intros h Hh; inversion Hh|].
  split; [|exact H4].
  apply (H3 "CHAP user").
  - discriminate.
  - exists Host.target1. split; [left|reflexivity].
  - reflexivity.
  - discriminate.
  - vm_compute. discriminate.
Defined.

Lemma copy_volume_to_image_vhd_witness :
  (∃ w1,
     WindowsDriver.copy_volume_to_image Host.conf Host.vol1 Host.image_vhd Host.exported
     = (inr tt, w1)
     ∧ images w1 = {[ "img2" := "vpc" ]})
  ∧ fst (WindowsDriver.copy_volume_to_image Host.conf Host.vol1 Host.image_vhd
           Host.empty_file)
    = inl (ServiceError "empty image")
  ∧ fst (WindowsDriver.copy_volume_to_image Host.conf Host.vol1 Host.image_vhd
           Host.orphaned)
    = inl (IOError "C:\iSCSIVirtualDisks\vol1.vhd").
Proof.
  destruct (copy_volume_to_image_vhd Host.conf Host.vol1 Host.image_vhd Host.exported
              eq_refl) as (H1 & _ & _).
  destruct (copy_volume_to_image_vhd Host.conf Host.vol1 Host.image_vhd Host.empty_file
              eq_refl) as (_ & H2 & _).
  destruct (copy_volume_to_image_vhd Host.conf Host.vol1 Host.image_vhd Host.orphaned
              eq_refl) as (_ & _ & H3).
  split; [|split].
  - destruct (H1 "vpc" eq_refl eq_refl) as (w1 & E & Him & _).
    exists w1. split; [exact E|]. rewrite Him. vm_compute. reflexivity.
  - destruct (H2 EmptyString (ServiceError "empty image") eq_refl eq_refl)
      as (w1 & -> & _). reflexivity.
  - destruct (H3 eq_refl) as (w1 & -> & _). reflexivity.
Defined.

Lemma upload_volume_converted_witness :
  (fst (WindowsCommon.upload_volume Host.conf Host.image1
          "C:\iSCSIVirtualDisks\vol1.vhd" Host.exported) = inr tt
   ∧ images (snd (WindowsCommon.upload_volume Host.conf Host.image1
                    "C:\iSCSIVirtualDisks\vol1.vhd" Host.exported))
     !! "img1" = Some "qcow2")
  ∧ fst (WindowsCommon.upload_volume Host.conf Host.image_two_words
           "C:\iSCSIVirtualDisks\vol1.vhd" Host.exported)
    = inl (ImageUnacceptable "img3"
             "Converted to vmdk streamOptimized, but format is now vmdk").
Proof.
  split.
  - destruct (upload_volume_converted Host.conf Host.image1
                "C:\iSCSIVirtualDisks\vol1.vhd" "vpc" "qcow2" Host.exported)
      as [H1 _].
    + intros H. vm_compute in H. discriminate H.
    + reflexivity.
    + reflexivity.
    + intros H. vm_compute in H. discriminate H.
    + reflexivity.
    + destruct (H1 eq_refl eq_refl) as [E Him].
      split; [exact E|]. rewrite Him. reflexivity.
  - destruct (upload_volume_converted Host.conf Host.image_two_words
                "C:\iSCSIVirtualDisks\vol1.vhd" "vpc" "vmdk streamOptimized"
                Host.exported)
      as [_ H2].
    + intros H. vm_compute in H. discriminate H.
    + reflexivity.
    + reflexivity.
    + intros H. vm_compute in H. discriminate H.
    + reflexivity.
    + destruct H2 as [E _]; [vm_compute; discriminate|].
      rewrite E. vm_compute. reflexivity.
Defined.

Lemma fetch_to_vhd_unknown_format_witness :
  ∃ w1,
    WindowsCommon.fetch_to_vhd Host.conf "img-junk" "C:\iSCSIVirtualDisks\vol2.vhd"
      Host.with_junk
    = (inl (ImageUnacceptable "img-junk" "'qemu-img info' parsing failed."), w1)
    ∧ files w1 = files Host.with_junk.
Proof.
  apply (fetch_to_vhd_unknown_format Host.conf "img-junk"
           "C:\iSCSIVirtualDisks\vol2.vhd" "not an image" Host.with_junk);
    reflexivity.
Defined.

Lemma fetch_to_vhd_failed_conversion_stays_witness :
  ∃ w1,
    WindowsCommon.fetch_to_vhd (Ext := Host.bad_converter) Host.conf "img-raw"
      "C:\iSCSIVirtualDisks\vol1.vhd" Host.with_junk
    = (inl (ImageUnacceptable "img-raw" "Converted to vhd, but format is now raw"), w1)
    ∧ files w1 !! "C:\iSCSIVirtualDisks\vol1.vhd" = Some "raw".
Proof.
  destruct (fetch_to_vhd_failed_conversion_stays (Ext := Host.bad_converter) Host.conf
              "img-raw" "C:\iSCSIVirtualDisks\vol1.vhd" "raw" "raw" "raw" Host.with_junk)
    as (w1 & H1 & H2).
  - reflexivity.
  - reflexivity.
  - reflexivity.
  - reflexivity.
  - reflexivity.
  - vm_compute. discriminate.
  - reflexivity.
  - intros H. vm_compute in H. discriminate H.
  - exists w1. split; [exact H1|]. rewrite H2. apply lookup_insert_eq.
Defined.

Lemma upload_then_fetch_witness :
  ∃ w1 w2,
    WindowsCommon.upload_volume Host.conf Host.image_vhd "C:\iSCSIVirtualDisks\vol1.vhd"
      Host.exported = (inr tt, w1)
    ∧ WindowsCommon.fetch_to_vhd Host.conf "img2" "C:\iSCSIVirtualDisks\vol2.vhd" w1
      = (inr tt, w2)
    ∧ files w2 !! "C:\iSCSIVirtualDisks\vol2.vhd" = Some "vpc".
Proof.
  destruct (upload_then_fetch Host.conf Host.image_vhd "C:\iSCSIVirtualDisks\vol1.vhd"
              "C:\iSCSIVirtualDisks\vol2.vhd" "vpc" Host.exported)
    as (w1 & H1 & w2 & H2 & H3).
  - reflexivity.
  - reflexivity.
  - reflexivity.
  - reflexivity.
  - reflexivity.
  - reflexivity.
  - reflexivity.
  - intros H. vm_compute in H. discriminate H.
  - exists w1, w2. split; [exact H1|]. split; [exact H2|].
    rewrite H3. apply lookup_insert_eq.
Defined.

Lemma export_of_exported_volume_witness :
  fst (WindowsDriver.ensure_export Host.conf Host.vol1 Host.exported) = inr tt
  ∧ fst (WindowsDriver.create_export Host.conf Host.vol1 Host.exported)
    = inl (x_wmi "The file exists.").
Proof.
  destruct (export_of_exported_volume Host.conf Host.vol1 "The file exists."
              Host.exported)
    as ((d & w1 & _ & _ & -> & _) & (w2 & -> & _)).
  - reflexivity.
  - reflexivity.
  - exists Host.target1. split; [left|reflexivity].
  - exists Host.disk1. split; [left|reflexivity].
  - split; reflexivity.
Defined.

Lemma create_iscsi_target_masks_foreign_exception_witness :
  fst (WindowsCommon.create_iscsi_target (Ext := Host.broken)
         "iqn.2010-10.org.openstack:vol1" true Host.bare)
  = inl AttributeError.
Proof.
  destruct (create_iscsi_target_masks_foreign_exception (Ext := Host.broken)
              "iqn.2010-10.org.openstack:vol1" true (IOError "wmi") Host.bare)
    as (w1 & -> & _).
  - reflexivity.
  - discriminate.
  - reflexivity.
Defined.
